(** * timezones.fields: the time-zone name field and the localized datetime field

    A shallow embedding of [timezones/fields.py] (Python 2, Django, pytz) and
    the properties of its conversion logic.

    Conventions of the embedding.
    - A Python call that may raise is a value of [result]; exceptions are the
      constructors of [exn].
    - A [datetime] is its wall-clock reading, counted in microseconds from
      0001-01-01T00:00:00, together with its [tzinfo] attribute ([None] for a
      naive value).  A [timedelta] is a number of microseconds.  Arithmetic
      on readings that leaves [datetime.min] .. [datetime.max] raises
      [OverflowError], as in CPython.
    - pytz, Django's field base classes and the database connection are
      collaborators of the module.  pytz is described by the interface the
      module uses ([localize], [fromutc] behind [astimezone], [pytz.timezone],
      [pytz.all_timezones_set]); the base classes and the connection are
      functions passed to the methods that call them. *)

From Stdlib Require Import ZArith Lia List Bool.
From stdpp Require Import base option list strings gmap pretty.

Local Open Scope Z_scope.

(* ===================================================================== *)
(** ** Python results and exceptions *)
(* ===================================================================== *)

Inductive exn : Type :=
  | ValueError
  | AttributeError
  | NameError
  | IndexError
  | TypeError
  | FieldError
  | UnknownTimeZoneError
  | ConfigurationError
  | DatabaseError
  | OverflowError
  | RuntimeError
  | OtherError (msg : string).

Inductive result (A : Type) : Type :=
  | Ok (a : A)
  | Raise (e : exn).
Arguments Ok {A} a.
Arguments Raise {A} e.

Global Instance result_ret : MRet result := fun A a => Ok a.

Global Instance result_bind : MBind result := fun A B k r =>
  match r with
  | Ok a => k a
  | Raise e => Raise e
  end.

Global Instance result_fmap : FMap result := fun A B f r =>
  match r with
  | Ok a => Ok (f a)
  | Raise e => Raise e
  end.

(** [try: body except: handler] with a bare [except] clause. *)
Definition try_except_all {A} (body : result A) (handler : A) : A :=
  match body with
  | Ok a => a
  | Raise _ => handler
  end.

Definition raises {A} (r : result A) : Prop :=
  match r with Ok _ => False | Raise _ => True end.

Global Instance exn_eq_dec : EqDecision exn.
Proof. solve_decision. Defined.

(* ===================================================================== *)
(** ** datetime, timedelta, tzinfo *)
(* ===================================================================== *)

Definition usec_per_second : Z := 1000000.
Definition seconds (n : Z) : Z := n * usec_per_second.
Definition minutes (n : Z) : Z := seconds (60 * n).
Definition hours (n : Z) : Z := seconds (3600 * n).
Definition days (n : Z) : Z := seconds (86400 * n).

(** One tzinfo instance.  pytz keeps one instance for each triple
    (utcoffset, dst, tzname) of a zone, so an instance is identified by its
    zone name and that triple. *)
Record tzinfo : Type := mk_tzinfo {
  zone : string;
  _utcoffset : Z;      (* timedelta *)
  _dst : Z;            (* timedelta *)
  _tzname : string
}.

Global Instance tzinfo_eq_dec : EqDecision tzinfo.
Proof. solve_decision. Defined.

Record datetime : Type := mk_datetime {
  wall : Z;                      (* the reading of the clock, microseconds *)
  dt_tzinfo : option tzinfo      (* the tzinfo attribute *)
}.

Global Instance datetime_eq_dec : EqDecision datetime.
Proof. solve_decision. Defined.

Definition is_naive (d : datetime) : bool :=
  match dt_tzinfo d with None => true | Some _ => false end.

Definition is_aware (d : datetime) : bool := negb (is_naive d).

(** [d.replace(tzinfo=t)]: the reading is kept. *)
Definition replace_tzinfo (d : datetime) (t : option tzinfo) : datetime :=
  {| wall := wall d; dt_tzinfo := t |}.

(** The point in time an aware value denotes, as a UTC reading. *)
Definition utc_reading (w : Z) (t : tzinfo) : Z := w - _utcoffset t.

(** CPython's [_ymd2ord] and the reading of a calendar date and time. *)
Definition _is_leap (y : Z) : bool :=
  (y mod 4 =? 0) && (negb (y mod 100 =? 0) || (y mod 400 =? 0)).

Definition _days_before_year (year : Z) : Z :=
  let y := year - 1 in y * 365 + y / 4 - y / 100 + y / 400.

Definition _DAYS_BEFORE_MONTH : list Z :=
  [0; 31; 59; 90; 120; 151; 181; 212; 243; 273; 304; 334].

Definition _days_before_month (year month : Z) : Z :=
  nth (Z.to_nat (month - 1)) _DAYS_BEFORE_MONTH 0
  + (if (2 <? month) && _is_leap year then 1 else 0).

Definition _ymd2ord (year month day : Z) : Z :=
  _days_before_year year + _days_before_month year month + day.

Definition reading (year month day hour minute second : Z) : Z :=
  days (_ymd2ord year month day - 1) + hours hour + minutes minute
  + seconds second.

(** [datetime.min] is 0001-01-01T00:00:00 and [datetime.max] is
    9999-12-31T23:59:59.999999. *)
Definition datetime_min : Z := reading 1 1 1 0 0 0.
Definition datetime_max : Z := reading 9999 12 31 23 59 59 + 999999.

(** The result of datetime arithmetic: a reading outside the range is
    refused with [OverflowError]. *)
Definition checked (w : Z) : result Z :=
  if (datetime_min <=? w) && (w <=? datetime_max) then Ok w
  else Raise OverflowError.

(* ===================================================================== *)
(** ** pytz: the interface of a time zone *)
(* ===================================================================== *)

Record transition_info : Type := mk_info {
  ti_utcoffset : Z;
  ti_dst : Z;
  ti_tzname : string
}.

(** A zone object as the module uses it: its name, the triple of the object
    itself, the triple in force at a UTC reading ([fromutc]) and the triple
    [localize(dt)] (with the default [is_dst=False]) chooses for a naive
    reading, when it does not fail. *)
Record tzobj : Type := mk_tzobj {
  tz_name : string;
  tz_own_info : transition_info;
  tz_info_at_utc : Z -> transition_info;
  tz_info_for_local : Z -> result transition_info
}.

(** The tzinfo instance of zone [tz] for a triple. *)
Definition instance_of (tz : tzobj) (i : transition_info) : tzinfo :=
  {| zone := tz_name tz; _utcoffset := ti_utcoffset i; _dst := ti_dst i;
     _tzname := ti_tzname i |}.

(** The zone object is itself a tzinfo instance. *)
Definition tz_self (tz : tzobj) : tzinfo := instance_of tz (tz_own_info tz).

(** [tz.localize(dt)]: refuses an aware value, keeps the reading of a naive
    one and attaches the chosen instance; the search for that instance may
    fail. *)
Definition localize (tz : tzobj) (d : datetime) : result datetime :=
  match dt_tzinfo d with
  | Some _ => Raise ValueError
  | None =>
      i ← tz_info_for_local tz (wall d);
      mret (replace_tzinfo d (Some (instance_of tz i)))
  end.

(** [tz.fromutc(utc)]: [(dt + inf[0]).replace(tzinfo=...)]. *)
Definition fromutc (tz : tzobj) (utc : Z) : result datetime :=
  let i := tz_info_at_utc tz utc in
  w ← checked (utc + ti_utcoffset i);
  mret {| wall := w; dt_tzinfo := Some (instance_of tz i) |}.

(** [dt.astimezone(tz)] (Python 2): a naive value is refused; a value whose
    tzinfo is the object [tz] is returned as it is; otherwise the UTC reading
    is computed and handed to [tz.fromutc]. *)
Definition astimezone (d : datetime) (tz : tzobj) : result datetime :=
  match dt_tzinfo d with
  | None => Raise ValueError
  | Some t =>
      if decide (t = tz_self tz) then Ok d
      else
        utc ← checked (utc_reading (wall d) t);
        fromutc tz utc
  end.

(** The point in time of an aware value; [None] for a naive one. *)
Definition instant (d : datetime) : option Z :=
  match dt_tzinfo d with
  | None => None
  | Some t => Some (utc_reading (wall d) t)
  end.

(** Equality of two points in time to the second. *)
Definition same_second (a b : Z) : Prop :=
  a / usec_per_second = b / usec_per_second.

(* ===================================================================== *)
(** ** pytz: the zones used in the examples *)
(* ===================================================================== *)

Module Pytz.

(** [pytz.utc]: a single instance; [localize] and [fromutc] attach it. *)
Definition utc_info : transition_info :=
  {| ti_utcoffset := 0; ti_dst := 0; ti_tzname := "UTC" |}.

Definition UTC : tzobj :=
  {| tz_name := "UTC";
     tz_own_info := utc_info;
     tz_info_at_utc := fun _ => utc_info;
     tz_info_for_local := fun _ => Ok utc_info |}.

(** A [DstTzInfo] zone: the sorted UTC readings of its transitions and the
    triple that starts at each of them.  The first entry of both lists
    stands for the beginning of time (the zone's local mean time). *)
Record DstTzInfo : Type := mk_DstTzInfo {
  dz_zone : string;
  _utc_transition_times : list Z;
  _transition_info : list transition_info
}.

Fixpoint bisect_right (a : list Z) (x : Z) : Z :=
  match a with
  | [] => 0
  | t :: rest => if x <? t then 0 else 1 + bisect_right rest x
  end.

Definition no_info : transition_info :=
  {| ti_utcoffset := 0; ti_dst := 0; ti_tzname := "" |}.

(** [idx = max(0, bisect_right(times, t) - 1); inf = info[idx]]. *)
Definition info_at (z : DstTzInfo) (t : Z) : transition_info :=
  let idx := Z.max 0 (bisect_right (_utc_transition_times z) t - 1) in
  nth (Z.to_nat idx) (_transition_info z) no_info.

(** One round of the loop of [DstTzInfo.localize] over
    [delta in (-1 day, +1 day)]: the triple in force at [dt + delta] is
    attached to the reading and the result is normalized (taken to UTC and
    back); it is kept when it still shows the reading. *)
Definition candidate (z : DstTzInfo) (w delta : Z)
  : result (option transition_info) :=
  loc_dt ← checked (w + delta);
  let inf := info_at z loc_dt in
  utc ← checked (w - ti_utcoffset inf);
  let inf' := info_at z utc in
  back ← checked (utc + ti_utcoffset inf');
  mret (if back =? w then Some inf' else None).

(** [DstTzInfo.localize(dt, is_dst=False)].  The candidates are collected in
    a set of aware datetimes, which are equal when they denote the same
    point in time.  No candidate: the reading never existed, and the answer
    is that of the reading six hours earlier.  Two candidates: the reading
    occurred twice; the one that is not in daylight time is taken, and
    between two of the same kind the later one in UTC.  [depth] is what is
    left of the interpreter's recursion limit. *)
Fixpoint localize_info (depth : nat) (z : DstTzInfo) (w : Z)
  : result transition_info :=
  c1 ← candidate z w (days (-1));
  c2 ← candidate z w (days 1);
  match c1, c2 with
  | None, None =>
      match depth with
      | O => Raise RuntimeError
      | S depth' =>
          earlier ← checked (w - hours 6);
          localize_info depth' z earlier
      end
  | Some c, None => Ok c
  | None, Some c => Ok c
  | Some c1, Some c2 =>
      if ti_utcoffset c1 =? ti_utcoffset c2 then Ok c1
      else
        match ti_dst c1 =? 0, ti_dst c2 =? 0 with
        | true, false => Ok c1
        | false, true => Ok c2
        | _, _ =>
            Ok (if ti_utcoffset c1 <? ti_utcoffset c2 then c1 else c2)
        end
  end.

(** The interpreter's recursion limit. *)
Definition recursion_limit : nat := 1000.

Definition zone_of_table (z : DstTzInfo) : tzobj :=
  {| tz_name := dz_zone z;
     tz_own_info := nth 0 (_transition_info z) no_info;
     tz_info_at_utc := info_at z;
     tz_info_for_local := localize_info recursion_limit z |}.

(** America/New_York, an excerpt of pytz's table: local mean time, the
    adoption of standard time in 1883, and the transitions of 2020, 2021 and
    2022.  The transitions in between are left out; the examples lie in
    2021. *)
Definition LMT : transition_info :=
  {| ti_utcoffset := seconds (-17760); ti_dst := 0; ti_tzname := "LMT" |}.
Definition EST : transition_info :=
  {| ti_utcoffset := hours (-5); ti_dst := 0; ti_tzname := "EST" |}.
Definition EDT : transition_info :=
  {| ti_utcoffset := hours (-4); ti_dst := hours 1; ti_tzname := "EDT" |}.

Definition New_York_table : DstTzInfo :=
  {| dz_zone := "America/New_York";
     _utc_transition_times :=
       [ reading 1 1 1 0 0 0;
         reading 1883 11 18 17 0 0;
         reading 2020 3 8 7 0 0;
         reading 2020 11 1 6 0 0;
         reading 2021 3 14 7 0 0;
         reading 2021 11 7 6 0 0;
         reading 2022 3 13 7 0 0;
         reading 2022 11 6 6 0 0 ];
     _transition_info := [ LMT; EST; EDT; EST; EDT; EST; EDT; EST ] |}.

Definition New_York : tzobj := zone_of_table New_York_table.

End Pytz.

(* ===================================================================== *)
(** ** The collaborators of the module *)
(* ===================================================================== *)

(** pytz's table of names: [pytz.all_timezones_set] and the zone behind a
    name, if any. *)
Class PytzLib : Type := {
  all_timezones_set : gset string;
  tz_lookup : string -> option tzobj
}.

(** The values a [timezone] argument, a callable's result or a column of a
    record can be. *)
#[warnings="-register-all"]
Inductive pyobj : Type :=
  | PyNone
  | PyStr (s : string)
  | PyInt (n : Z)
  | PyTz (tz : tzobj)
  | PyCallable (f : unit -> result pyobj).

Definition isinstance_basestring (o : pyobj) : bool :=
  match o with PyStr _ => true | _ => false end.

Definition callable (o : pyobj) : bool :=
  match o with PyCallable _ => true | _ => false end.

Definition is_None (o : pyobj) : bool :=
  match o with PyNone => true | _ => false end.

(** [pytz.timezone(zone)]: the zone of a known name, [UnknownTimeZoneError]
    for another string, and an [AttributeError] for a value that has no
    string methods. *)
Definition pytz_timezone `{PytzLib} (o : pyobj) : result tzobj :=
  match o with
  | PyStr s =>
      match tz_lookup s with
      | Some tz => Ok tz
      | None => Raise UnknownTimeZoneError
      end
  | _ => Raise AttributeError
  end.

(** [django.conf.settings], as far as the module reads it. *)
Record Settings : Type := mk_Settings {
  setting_TIME_ZONE : option string;
  setting_MAX_TIMEZONE_LENGTH : option Z
}.

(** The module globals computed when the module is imported. *)
Class Globals : Type := {
  MAX_TIMEZONE_LENGTH : Z;
  default_tz : tzobj
}.

(** Lines 13-14: [getattr(settings, name, default)]. *)
Definition import_globals `{PytzLib} (settings : Settings) : result Globals :=
  tz ← pytz_timezone (PyStr (default "UTC"%string (setting_TIME_ZONE settings)));
  mret {| MAX_TIMEZONE_LENGTH := default 100 (setting_MAX_TIMEZONE_LENGTH settings);
          default_tz := tz |}.

(** Modelled from the spec: the module [timezones.zones] is not among the
    sources.  The spec describes it as a precomputed table of the valid IANA
    name strings and a parallel table of (value, label) pairs. *)
Class Zones : Type := {
  ALL_TIMEZONE_CHOICES : list string;
  PRETTY_TIMEZONE_CHOICES : list (string * string)
}.

(** An attribute read with [getattr(obj, name)]: missing, present with a
    false value, or present with an object. *)
Inductive attr (A : Type) : Type :=
  | NoAttr
  | FalsyAttr
  | Attr (a : A).
Arguments NoAttr {A}.
Arguments FalsyAttr {A}.
Arguments Attr {A} a.

(** [getattr(obj, name)] used as a condition: a missing attribute raises,
    a false value gives [None]. *)
Definition getattr_cond {A} (a : attr A) : result (option A) :=
  match a with
  | NoAttr => Raise AttributeError
  | FalsyAttr => Ok None
  | Attr x => Ok (Some x)
  end.

(** The database connection: [connection.ops.value_to_db_datetime]. *)
Record DatabaseOperations : Type := mk_ops {
  value_to_db_datetime : attr (option datetime -> result unit)
}.

Record Connection : Type := mk_connection {
  ops : attr DatabaseOperations
}.

(** What the module hands to its collaborators, in order. *)
Inductive event : Type :=
  | Probe (v : option datetime)        (* connection.ops.value_to_db_datetime(v) *)
  | BaseSave (v : option datetime)     (* DateTimeField.get_db_prep_save(v, ...) *)
  | BaseLookup (v : option datetime).  (* DateTimeField.get_db_prep_lookup(.., v, ...) *)

Global Instance event_eq_dec : EqDecision event.
Proof. solve_decision. Defined.

(** A computation that calls collaborators: the calls made and the outcome. *)
Record traced (A : Type) : Type := Traced {
  trace : list event;
  outcome : result A
}.
Arguments Traced {A} trace outcome.
Arguments trace {A} t.
Arguments outcome {A} t.

Global Instance traced_ret : MRet traced := fun A a => Traced [] (Ok a).

Global Instance traced_bind : MBind traced := fun A B k m =>
  match outcome m with
  | Ok a => Traced (trace m ++ trace (k a)) (outcome (k a))
  | Raise e => Traced (trace m) (Raise e)
  end.

Definition lift {A} (r : result A) : traced A := Traced [] r.

Definition call {A} (e : event) (r : result A) : traced A := Traced [e] r.

(** [try: body except ValueError: handler]. *)
Definition try_except_ValueError {A} (body handler : traced A) : traced A :=
  match outcome body with
  | Raise ValueError =>
      Traced (trace body ++ trace handler) (outcome handler)
  | _ => body
  end.

(* ===================================================================== *)
(** ** class TimeZoneField (lines 17-60) *)
(* ===================================================================== *)

(** The values of a [TimeZoneField]: absent, a name, or a zone object. *)
Inductive tzvalue : Type :=
  | TzNull
  | TzName (s : string)
  | TzZone (tz : tzobj).

(** [str(zone)] for a pytz zone is its name. *)
Definition smart_unicode (v : tzvalue) : string :=
  match v with
  | TzNull => "None"
  | TzName s => s
  | TzZone tz => tz_name tz
  end.

Definition smart_str (v : tzvalue) : string := smart_unicode v.

(** Django's [CharField.to_python]: a string or [None] is returned as it
    is, another value is turned into text. *)
Definition CharField_to_python (v : tzvalue) : option string :=
  match v with
  | TzNull => None
  | TzName s => Some s
  | TzZone _ => Some (smart_unicode v)
  end.

(** Modelled from the spec: [timezones.utils.coerce_timezone_value] is not
    among the sources.  The spec: a string is looked up in the
    known-identifier set; if found, the result is the resolved zone; if not
    found, the string is returned unchanged and unresolved; coercion never
    fails. *)
Definition coerce_timezone_value `{PytzLib} (value : string) : tzvalue :=
  if decide (value ∈ all_timezones_set) then
    match tz_lookup value with
    | Some tz => TzZone tz
    | None => TzName value
    end
  else TzName value.

(** Lines 39-43. *)
Definition to_python `{PytzLib} (value : tzvalue) : tzvalue :=
  let value := CharField_to_python value in
  match value with
  | None => TzNull                      (* null=True *)
  | Some value => coerce_timezone_value value
  end.

(** Lines 45-48. *)
Definition get_prep_value (value : tzvalue) : option string :=
  match value with
  | TzNull => None
  | _ => Some (smart_unicode value)
  end.

(** Lines 50-54. *)
Definition TimeZoneField_get_db_prep_save (value : tzvalue) : option string :=
  get_prep_value value.

Definition len (s : string) : Z := Z.of_nat (String.length s).

(** The length of the longest string of a list (0 for the empty list). *)
Definition longest (known_identifiers : list string) : Z :=
  foldr Z.max 0 (len <$> known_identifiers).

(** Modelled from the spec: [timezones.utils.validate_timezone_max_length]
    is not among the sources.  The spec: it checks that [max_length] is no
    smaller than the length of the longest string among the known
    identifiers, and fails with a configuration error otherwise. *)
Definition validate_timezone_max_length (max_length : Z)
    (known_identifiers : list string) : result unit :=
  if max_length <? longest known_identifiers then Raise ConfigurationError
  else Ok tt.

(** The keyword arguments of the field and the ones handed on to
    [CharField.__init__]. *)
Record field_kwargs : Type := mk_kwargs {
  kw_max_length : option Z;
  kw_default : option string;
  kw_choices : option (list (string * string))
}.

(** Lines 21-29: the check comes first; then [defaults.update(kwargs)]. *)
Definition TimeZoneField_init `{Globals} `{Zones} (TIME_ZONE : string)
    (kwargs : field_kwargs) : result field_kwargs :=
  _ ← validate_timezone_max_length MAX_TIMEZONE_LENGTH ALL_TIMEZONE_CHOICES;
  mret {| kw_max_length := Some (default MAX_TIMEZONE_LENGTH (kw_max_length kwargs));
          kw_default := Some (default TIME_ZONE (kw_default kwargs));
          kw_choices := Some (default PRETTY_TIMEZONE_CHOICES (kw_choices kwargs)) |}.

(* ===================================================================== *)
(** ** class LocalizedDateTimeField (lines 63-116) *)
(* ===================================================================== *)

Record LocalizedDateTimeField : Type := mk_field {
  attname : string;
  timezone : pyobj
}.

(** Lines 70-77: a string that is a known name becomes the zone object;
    anything else is kept as it is. *)
Definition LocalizedDateTimeField_init `{PytzLib} (name : string)
    (timezone : pyobj) : result LocalizedDateTimeField :=
  match timezone with
  | PyStr s =>
      if decide (s ∈ all_timezones_set) then
        tz ← pytz_timezone (PyStr s);
        mret {| attname := name; timezone := PyTz tz |}
      else mret {| attname := name; timezone := timezone |}
  | _ => mret {| attname := name; timezone := timezone |}
  end.

Section LocalizedDateTimeField_methods.
Context `{Globals}.
Context {dbvalue : Type}.

(** Lines 91-95 and 112-115: [## convert to settings.TIME_ZONE]. *)
Definition convert_to_default (value : datetime) : result datetime :=
  match dt_tzinfo value with
  | None => localize default_tz value
  | Some _ => astimezone value default_tz
  end.

(** Line 98: the condition that guards the probe.  [and] stops at the first
    false operand; [getattr] without a default raises on a missing
    attribute. *)
Definition probe_of (connection : option Connection)
  : result (option (option datetime -> result unit)) :=
  match connection with
  | None => Ok None
  | Some c =>
      o ← getattr_cond (ops c);
      match o with
      | None => Ok None
      | Some o => getattr_cond (value_to_db_datetime o)
      end
  end.

(** [value.replace(tzinfo=None)]; [None] has no [replace]. *)
Definition strip (value : option datetime) : result (option datetime) :=
  match value with
  | None => Raise AttributeError
  | Some d => Ok (Some (replace_tzinfo d None))
  end.

(** Lines 86-105.  [super_save] is [DateTimeField.get_db_prep_save]. *)
Definition get_db_prep_save
    (super_save : option datetime -> result dbvalue)
    (value : option datetime) (connection : option Connection)
  : traced dbvalue :=
  value ← lift (match value with
                | None => Ok None
                | Some d => Some <$> convert_to_default d
                end);
  probe ← lift (probe_of connection);
  value ← match probe with
          | None => mret value
          | Some value_to_db_datetime =>
              try_except_ValueError
                (_ ← call (Probe value) (value_to_db_datetime value);
                 mret value)
                (lift (strip value))
          end;
  call (BaseSave value) (super_save value).

(** Lines 107-116.  [value.tzinfo] is read with no test for [None]. *)
Definition get_db_prep_lookup
    (super_lookup : option datetime -> result dbvalue)
    (value : option datetime) : traced dbvalue :=
  value ← lift (match value with
                | None => Raise AttributeError
                | Some d => Some <$> convert_to_default d
                end);
  call (BaseLookup value) (super_lookup value).

End LocalizedDateTimeField_methods.

(* ===================================================================== *)
(** ** prep_localized_datetime (lines 119-173) *)
(* ===================================================================== *)

(** A record instance: its primary key, its attributes that hold datetimes,
    and the table behind [instance._default_manager] (rows by primary key,
    columns by field name). *)
Record Model : Type := mk_model {
  pk : Z;
  attrs : gmap string (option datetime);
  _default_manager : gmap Z (gmap string pyobj)
}.

Definition setattr (instance : Model) (name : string) (v : option datetime)
  : Model :=
  {| pk := pk instance;
     attrs := <[name := v]> (attrs instance);
     _default_manager := _default_manager instance |}.

Definition getattr (instance : Model) (name : string)
  : result (option datetime) :=
  match attrs instance !! name with
  | Some v => Ok v
  | None => Raise AttributeError
  end.

(** The names bound where the body of [set_dtz_field] runs: its own
    parameters and locals, those of the two enclosing functions, and the
    globals of the module. *)
Definition locals_of_set_dtz_field : list string :=
  ["instance"; "dt"; "time_zone"; "tz_name"].

Definition enclosing_names : list string :=
  ["field"; "dt_field_name"; "get_dtz_field"; "set_dtz_field";
   "sender"; "kwargs"; "gen_getset_dtz_field"].

Definition module_globals : list string :=
  ["settings"; "models"; "signals"; "smart_unicode"; "smart_str"; "pytz";
   "forms"; "zones"; "coerce_timezone_value"; "validate_timezone_max_length";
   "MAX_TIMEZONE_LENGTH"; "default_tz"; "TimeZoneField";
   "LocalizedDateTimeField"; "prep_localized_datetime";
   "add_introspection_rules"].

Definition visible_names : list string :=
  locals_of_set_dtz_field ++ enclosing_names ++ module_globals.

(** Reading a name that is expected to hold a record: an unbound name raises
    [NameError]; of the bound names only [instance] holds a record. *)
Definition load_name (name : string) (instance : Model) : result Model :=
  if decide (name ∈ visible_names) then
    if decide (name = "instance"%string) then Ok instance
    else Raise AttributeError
  else Raise NameError.

Definition _get_pk_val (m : Model) : Z := pk m.

(** [manager.filter(pk=k)]: the rows with that key. *)
Definition filter_pk (manager : gmap Z (gmap string pyobj)) (k : Z)
  : list (gmap string pyobj) :=
  match manager !! k with
  | Some row => [row]
  | None => []
  end.

(** [queryset.values_list(name)]: one 1-tuple for each row; a name that is
    no column is refused. *)
Fixpoint values_list (rows : list (gmap string pyobj)) (name : string)
  : result (list (list pyobj)) :=
  match rows with
  | [] => Ok []
  | row :: rest =>
      match row !! name with
      | None => Raise FieldError
      | Some v => tuples ← values_list rest name; mret ([v] :: tuples)
      end
  end.

(** [seq[i]]. *)
Definition index {A} (l : list A) (i : nat) : result A :=
  match l !! i with
  | Some x => Ok x
  | None => Raise IndexError
  end.

(** [dt.astimezone(time_zone)]: the argument must be a tzinfo object. *)
Definition astimezone_obj (dt : datetime) (time_zone : pyobj)
  : result datetime :=
  match time_zone with
  | PyTz tz => astimezone dt tz
  | _ => Raise TypeError
  end.

Section prep_localized_datetime.
Context `{PytzLib} `{Globals}.

Definition dt_field_name (field : LocalizedDateTimeField) : string :=
  "_datetimezone_" +:+ attname field.

(** Lines 130-131. *)
Definition get_dtz_field (field : LocalizedDateTimeField) (instance : Model)
  : result (option datetime) :=
  getattr instance (dt_field_name field).

(** Lines 144-147 and 158-161: [try: pytz.timezone(tz_name)] under a bare
    [except]. *)
Definition timezone_or_default (tz_name : pyobj) : pyobj :=
  try_except_all (PyTz <$> pytz_timezone tz_name) (PyTz default_tz).

(** Lines 148-150 and 164-166. *)
Definition default_if_None (time_zone : pyobj) : pyobj :=
  if is_None time_zone then PyTz default_tz else time_zone.

(** Lines 139-170: the value of [time_zone] when line 171 is reached. *)
Definition resolve_time_zone (field : LocalizedDateTimeField)
    (instance : Model) : result pyobj :=
  let time_zone := timezone field in
  match timezone field with
  | PyStr relation =>
      model_instance ← load_name "model_instance" instance;
      tuples ← values_list
                 (filter_pk (_default_manager instance)
                            (_get_pk_val model_instance))
                 relation;
      tuple ← index tuples 0;
      tz_name ← index tuple 0;
      let time_zone := timezone_or_default tz_name in
      mret (default_if_None time_zone)
  | PyCallable f =>
      tz_name ← f tt;
      let time_zone :=
        if isinstance_basestring tz_name then timezone_or_default tz_name
        else tz_name in
      mret (default_if_None time_zone)
  | _ => mret time_zone
  end.

(** Lines 133-171. *)
Definition set_dtz_field (field : LocalizedDateTimeField) (instance : Model)
    (dt : option datetime) : result Model :=
  match dt with
  | None => Ok (setattr instance (dt_field_name field) None)
  | Some dt =>
      dt ← (if is_naive dt then localize default_tz dt else Ok dt);
      time_zone ← resolve_time_zone field instance;
      converted ← astimezone_obj dt time_zone;
      mret (setattr instance (dt_field_name field) (Some converted))
  end.

(** Reading a stored value back: the record is built with the stored value
    assigned to the attribute (the property's setter), and the attribute
    is then read (the property's getter). *)
Definition on_read (field : LocalizedDateTimeField) (instance : Model)
    (stored : option datetime) : result (option datetime) :=
  instance ← set_dtz_field field instance stored;
  get_dtz_field field instance.

End prep_localized_datetime.

(** The fields of a model class. *)
Inductive ModelField : Type :=
  | OtherField (name : string)
  | Localized (field : LocalizedDateTimeField).

(** Lines 119-173: the attributes that receive the property, each with the
    field its accessors close over. *)
Fixpoint prep_localized_datetime (fields : list ModelField)
  : list (string * LocalizedDateTimeField) :=
  match fields with
  | [] => []
  | OtherField _ :: rest => prep_localized_datetime rest
  | Localized field :: rest =>
      if is_None (timezone field) then prep_localized_datetime rest
      else (attname field, field) :: prep_localized_datetime rest
  end.

(* ===================================================================== *)
(** ** LocalizedDateTimeField.formfield (lines 79-84) *)
(* ===================================================================== *)

(** The values of the keyword arguments of a form field. *)
Inductive formarg : Type :=
  | FormClass (name : string)
  | FormText (s : string).

Section formfield.
Context `{PytzLib}.
(** The text [str(f)] of a callable, which the interpreter makes up. *)
Context (str_of_callable : (unit -> result pyobj) -> string).

(** [str(obj)]. *)
Definition py_str (o : pyobj) : string :=
  match o with
  | PyNone => "None"
  | PyStr s => s
  | PyInt n => pretty n
  | PyTz tz => tz_name tz
  | PyCallable f => str_of_callable f
  end.

(** Lines 80-83: the keyword arguments handed to
    [DateTimeField.formfield]; [defaults.update(kwargs)] lets the caller's
    arguments win. *)
Definition formfield (field : LocalizedDateTimeField)
    (kwargs : gmap string formarg) : gmap string formarg :=
  let defaults : gmap string formarg :=
    {[ "form_class"%string := FormClass "forms.LocalizedDateTimeField" ]} in
  let defaults :=
    if negb (isinstance_basestring (timezone field))
       && bool_decide (py_str (timezone field) ∈ all_timezones_set)
    then <[ "timezone"%string := FormText (py_str (timezone field)) ]> defaults
    else defaults in
  kwargs ∪ defaults.

End formfield.

(* ===================================================================== *)
(** ** A configuration for the examples *)
(* ===================================================================== *)

Module Example.

Definition lib : PytzLib :=
  {| all_timezones_set := {[ "UTC"; "America/New_York" ]}%string;
     tz_lookup := fun s =>
       if decide (s = "UTC"%string) then Some Pytz.UTC
       else if decide (s = "America/New_York"%string) then Some Pytz.New_York
       else None |}.

(** [TIME_ZONE = "UTC"]. *)
Definition globals_utc : Globals :=
  {| MAX_TIMEZONE_LENGTH := 100; default_tz := Pytz.UTC |}.

(** [TIME_ZONE = "America/New_York"]. *)
Definition globals_new_york : Globals :=
  {| MAX_TIMEZONE_LENGTH := 100; default_tz := Pytz.New_York |}.

Definition empty_record : Model :=
  {| pk := 1; attrs := ∅; _default_manager := ∅ |}.

(** A connection whose probe accepts every value (PostgreSQL). *)
Definition accepting : Connection :=
  {| ops := Attr {| value_to_db_datetime := Attr (fun _ => Ok tt) |} |}.

(** A connection whose probe refuses aware values (MySQL). *)
Definition mysql_value_to_db_datetime (v : option datetime) : result unit :=
  match v with
  | None => Ok tt
  | Some d => if is_aware d then Raise ValueError else Ok tt
  end.

Definition mysql : Connection :=
  {| ops := Attr {| value_to_db_datetime := Attr mysql_value_to_db_datetime |} |}.

(** A base class that stores what it is given. *)
Definition store (v : option datetime) : result (option datetime) := Ok v.

End Example.

(* ===================================================================== *)
(** ** The vocabulary of the properties *)
(* ===================================================================== *)

(** The predicates below say what a value is by its reading and the fields
    of its tzinfo, written out, not by the functions that compute it. *)

(** [dt] is the naive value [d] localized in zone [tz]: the reading of [d]
    with the instance of [tz] that [localize] chose. *)
Definition localized_in (tz : tzobj) (d dt : datetime) : Prop :=
  dt_tzinfo d = None
  /\ exists i,
       tz_info_for_local tz (wall d) = Ok i
       /\ dt = {| wall := wall d;
                  dt_tzinfo := Some {| zone := tz_name tz;
                                       _utcoffset := ti_utcoffset i;
                                       _dst := ti_dst i;
                                       _tzname := ti_tzname i |} |}.

(** [r] is the aware value [d] moved to zone [tz]: [d] itself when its tzinfo
    is the object [tz]; otherwise the UTC reading of [d] plus the offset of
    [tz] in force at that UTC reading, with the instance of [tz] for that
    offset, both readings lying within the range of datetime. *)
Definition moved_to (tz : tzobj) (d r : datetime) : Prop :=
  exists t,
    dt_tzinfo d = Some t
    /\ ((t = tz_self tz /\ r = d)
        \/ (t <> tz_self tz
            /\ let utc := wall d - _utcoffset t in
               let i := tz_info_at_utc tz utc in
               datetime_min <= utc <= datetime_max
               /\ datetime_min <= utc + ti_utcoffset i <= datetime_max
               /\ r = {| wall := utc + ti_utcoffset i;
                         dt_tzinfo := Some {| zone := tz_name tz;
                                              _utcoffset := ti_utcoffset i;
                                              _dst := ti_dst i;
                                              _tzname := ti_tzname i |} |})).

(** [a] is [d] converted to the default zone: localized there when naive,
    moved there when aware. *)
Definition converted `{Globals} (d a : datetime) : Prop :=
  localized_in default_tz d a \/ moved_to default_tz d a.

(** [dt] is [d] after lines 137-138: localized in the default zone when
    naive, [d] itself when aware. *)
Definition made_aware `{Globals} (d dt : datetime) : Prop :=
  localized_in default_tz d dt \/ (is_aware d = true /\ dt = d).

(** [instance'] is [instance] after [d], made aware and moved to zone [tz],
    has been assigned to the attribute of [field]. *)
Definition assigned `{Globals} (field : LocalizedDateTimeField)
    (instance : Model) (d : datetime) (tz : tzobj) (instance' : Model)
  : Prop :=
  exists dt r,
    made_aware d dt
    /\ moved_to tz dt r
    /\ instance' =
         {| pk := pk instance;
            attrs := <[("_datetimezone_" +:+ attname field)%string := Some r]>
                       (attrs instance);
            _default_manager := _default_manager instance |}.

(** The point in time a value denotes: an aware value by its own offset, a
    naive value as a reading of the default zone's clock, when that reading
    can be localized. *)
Definition point_in_time `{Globals} (d : datetime) : option Z :=
  match dt_tzinfo d with
  | Some t => Some (wall d - _utcoffset t)
  | None =>
      match tz_info_for_local default_tz (wall d) with
      | Ok i => Some (wall d - ti_utcoffset i)
      | Raise _ => None
      end
  end.

(** What [get_db_prep_save] may hand to its collaborators when [a] is the
    value converted to the default zone: the probe sees [a]; the base class
    sees [a], or the reading of [a] with no tzinfo. *)
Definition handed_in_default_terms (a : datetime) (e : event) : Prop :=
  match e with
  | Probe v => v = Some a
  | BaseSave v =>
      v = Some a \/ v = Some {| wall := wall a; dt_tzinfo := None |}
  | BaseLookup _ => False
  end.

(** Localizing the reading of [a] in the default zone chooses the offset
    [a] carries. *)
Definition reading_unambiguous `{Globals} (a : datetime) : Prop :=
  exists t i,
    dt_tzinfo a = Some t
    /\ tz_info_for_local default_tz (wall a) = Ok i
    /\ ti_utcoffset i = _utcoffset t.

(** The field of a Static policy: [timezone] holds the zone object. *)
Definition static_field (name : string) (tz : tzobj) : LocalizedDateTimeField :=
  {| attname := name; timezone := PyTz tz |}.

(** The field of a Dynamic policy: [timezone] holds a callable. *)
Definition dynamic_field (name : string) (f : unit -> result pyobj)
  : LocalizedDateTimeField :=
  {| attname := name; timezone := PyCallable f |}.

(** The field of a Relational policy: [timezone] holds the name of a
    sibling field. *)
Definition relational_field (name relation : string) : LocalizedDateTimeField :=
  {| attname := name; timezone := PyStr relation |}.

(* ===================================================================== *)
(** ** The zones of the examples behave as pytz does *)
(* ===================================================================== *)

(** An ordinary reading has one candidate. *)
Lemma New_York_localize_summer :
  tz_info_for_local Pytz.New_York (reading 2021 7 1 12 0 0) = Ok Pytz.EDT.
Proof. vm_compute. reflexivity. Qed.

(** A reading of the repeated hour is taken as standard time. *)
Lemma New_York_localize_repeated_hour :
  Pytz.localize_info Pytz.recursion_limit Pytz.New_York_table
    (reading 2021 11 7 1 30 0) = Ok Pytz.EST.
Proof. vm_compute. reflexivity. Qed.

(** A reading of the skipped hour gets the triple in force six hours
    earlier. *)
Lemma New_York_localize_skipped_hour :
  Pytz.localize_info Pytz.recursion_limit Pytz.New_York_table
    (reading 2021 3 14 2 30 0) = Ok Pytz.EST.
Proof. vm_compute. reflexivity. Qed.

(** Within a day of [datetime.min] the search leaves the range. *)
Lemma New_York_localize_at_datetime_min :
  tz_info_for_local Pytz.New_York datetime_min = Raise OverflowError.
Proof. vm_compute. reflexivity. Qed.

Lemma New_York_fromutc_march :
  fromutc Pytz.New_York (reading 2021 3 15 10 0 0) =
    Ok {| wall := reading 2021 3 15 6 0 0;
          dt_tzinfo := Some (instance_of Pytz.New_York Pytz.EDT) |}.
Proof. vm_compute. reflexivity. Qed.

(** [datetime.min] as a UTC value cannot be shown in New York. *)
Lemma New_York_astimezone_at_datetime_min :
  astimezone {| wall := datetime_min; dt_tzinfo := Some (tz_self Pytz.UTC) |}
             Pytz.New_York
  = Raise OverflowError.
Proof. vm_compute. reflexivity. Qed.

Lemma reading_epoch : reading 1970 1 1 0 0 0 = days 719162.
Proof. reflexivity. Qed.

(* ===================================================================== *)
(** ** datetime arithmetic and the zone interface *)
(* ===================================================================== *)

Lemma checked_Ok (w w' : Z) :
  checked w = Ok w' <-> w' = w /\ datetime_min <= w <= datetime_max.
Proof.
  unfold checked.
  destruct (Z.leb_spec datetime_min w), (Z.leb_spec w datetime_max); cbn;
    split; try (intros [= <-]; split; [reflexivity | lia]);
    try discriminate; try (intros [_ ?]; lia).
  all: intros [-> _]; reflexivity.
Qed.

Lemma checked_in_range (w : Z) :
  datetime_min <= w <= datetime_max -> checked w = Ok w.
Proof. intros Hw. apply checked_Ok. auto. Qed.

Lemma checked_cases (w : Z) :
  checked w = Ok w \/ checked w = Raise OverflowError.
Proof. unfold checked. destruct (_ && _); auto. Qed.

Lemma localize_Ok (tz : tzobj) (d dt : datetime) :
  localize tz d = Ok dt <-> localized_in tz d dt.
Proof.
  unfold localize, localized_in.
  destruct (dt_tzinfo d) as [t |] eqn:Hd.
  - split; [discriminate | intros [[=] _]].
  - destruct (tz_info_for_local tz (wall d)) as [i | e]; cbn.
    + split.
      * intros [= <-]. split; [reflexivity |]. exists i. split; reflexivity.
      * intros (_ & i' & [= <-] & ->). reflexivity.
    + split; [discriminate | intros (_ & i' & [=] & _)].
Qed.

Lemma astimezone_Ok (d r : datetime) (tz : tzobj) :
  astimezone d tz = Ok r <-> moved_to tz d r.
Proof.
  unfold astimezone, moved_to.
  destruct (dt_tzinfo d) as [t |] eqn:Hd;
    [| split; [discriminate | intros (t & [=] & _)]].
  destruct (decide (t = tz_self tz)) as [Heq | Hne].
  - split.
    + intros [= <-]. exists t. split; [reflexivity |]. left. auto.
    + intros (t' & [= <-] & [[_ ->] | [Hne _]]); [reflexivity | contradiction].
  - unfold utc_reading, fromutc. cbn zeta. split.
    + intros Hr. exists t. split; [reflexivity |]. right.
      split; [assumption |].
      destruct (checked (wall d - _utcoffset t)) as [u | e] eqn:Hu; cbn in Hr;
        [| discriminate].
      apply checked_Ok in Hu. destruct Hu as [-> Hu].
      destruct (checked _) as [w | e] eqn:Hw; cbn in Hr; [| discriminate].
      apply checked_Ok in Hw. destruct Hw as [-> Hw].
      injection Hr as <-. repeat split; lia.
    + intros (t' & [= <-] & [[Heq _] | (_ & Hu & Hw & ->)]); [contradiction |].
      rewrite (checked_in_range _ Hu). cbn.
      rewrite (checked_in_range _ Hw). reflexivity.
Qed.

(** An aware value that cannot be moved makes [astimezone] raise
    [OverflowError]. *)
Lemma astimezone_aware_cases (d : datetime) (tz : tzobj) :
  is_aware d = true ->
  (exists r, astimezone d tz = Ok r) \/ astimezone d tz = Raise OverflowError.
Proof.
  unfold is_aware, is_naive, astimezone, fromutc.
  destruct (dt_tzinfo d) as [t |]; [intros _ | discriminate].
  destruct (decide _); [eauto |].
  destruct (checked_cases (utc_reading (wall d) t)) as [-> | ->]; cbn; [| auto].
  destruct (checked_cases (utc_reading (wall d) t
              + ti_utcoffset (tz_info_at_utc tz (utc_reading (wall d) t))))
    as [-> | ->]; cbn; eauto.
Qed.

(** Moving a value keeps the point in time it denotes. *)
Lemma moved_to_instant (tz : tzobj) (d r : datetime) :
  moved_to tz d r -> instant r = instant d /\ is_aware r = true.
Proof.
  intros (t & Hd & [[_ ->] | (_ & _ & _ & ->)]); unfold instant, is_aware, is_naive.
  - rewrite Hd. auto.
  - rewrite Hd. cbn. unfold utc_reading. cbn. split; [f_equal; lia | reflexivity].
Qed.

(** A value that was moved to a zone moves to itself. *)
Lemma moved_to_again (tz : tzobj) (d r : datetime) :
  moved_to tz d r -> moved_to tz r r.
Proof.
  intros (t & Hd & [[Heq ->] | (Hne & Hu & Hw & ->)]).
  - exists t. split; [assumption |]. left. auto.
  - cbn zeta in *.
    set (u := wall d - _utcoffset t) in *.
    set (i := tz_info_at_utc tz u) in *.
    eexists. split; [reflexivity |].
    match goal with
    | |- (?x = tz_self tz /\ _) \/ _ =>
        destruct (decide (x = tz_self tz)) as [Heq | Hne']
    end.
    + left. auto.
    + right. split; [assumption |]. cbn.
      replace (u + ti_utcoffset i - ti_utcoffset i) with u by lia.
      fold i. split; [exact Hu | split; [exact Hw | reflexivity]].
Qed.

(* ===================================================================== *)
(** ** Conversion to the default zone *)
(* ===================================================================== *)

Section conversion.
Context `{Globals}.

(** Lines 91-95 complete exactly with the value localized in, or moved to,
    the default zone. *)
Lemma convert_to_default_Ok (d a : datetime) :
  convert_to_default d = Ok a <-> converted d a.
Proof.
  unfold convert_to_default, converted.
  destruct (dt_tzinfo d) as [t |] eqn:Hd.
  - rewrite astimezone_Ok. split; [auto |].
    intros [[Hn _] | Hm]; [congruence | assumption].
  - rewrite localize_Ok. split; [auto |].
    intros [Hl | (t & Ht & _)]; [assumption | congruence].
Qed.

(** The converted value is aware and denotes the point in time of the
    original. *)
Lemma converted_instant (d a : datetime) :
  converted d a -> instant a = point_in_time d /\ is_aware a = true.
Proof.
  unfold point_in_time. intros [(Hd & i & Hi & ->) | Hm].
  - rewrite Hd, Hi. split; reflexivity.
  - destruct (moved_to_instant _ _ _ Hm) as [-> Haw]. split; [| assumption].
    destruct Hm as (t & Ht & _). unfold instant. now rewrite Ht.
Qed.

Lemma converted_aware (d a : datetime) :
  converted d a -> exists t, dt_tzinfo a = Some t.
Proof.
  intros Hc. destruct (converted_instant d a Hc) as [_ Haw].
  unfold is_aware, is_naive in Haw. destruct (dt_tzinfo a); [eauto | discriminate].
Qed.

(** A value that was moved to the default zone converts to itself. *)
Lemma convert_to_default_again (d a : datetime) :
  is_aware d = true -> convert_to_default d = Ok a -> convert_to_default a = Ok a.
Proof.
  intros Haw Ha. apply convert_to_default_Ok in Ha.
  destruct Ha as [[Hn _] | Hm].
  - unfold is_aware, is_naive in Haw. rewrite Hn in Haw. discriminate.
  - apply convert_to_default_Ok. right. exact (moved_to_again _ _ _ Hm).
Qed.

End conversion.

(* ===================================================================== *)
(** ** get_db_prep_save and get_db_prep_lookup *)
(* ===================================================================== *)

Section storage.
Context `{Globals}.
Context {dbvalue : Type}.
Implicit Types (super_save super_lookup : option datetime -> result dbvalue).

(** Everything [get_db_prep_save] does with a datetime that lines 91-95
    converted, by the state of the connection and the answer of the probe. *)
Lemma get_db_prep_save_datetime super_save d a connection :
  convert_to_default d = Ok a ->
  get_db_prep_save super_save (Some d) connection =
    match probe_of connection with
    | Raise e => Traced [] (Raise e)
    | Ok None => Traced [BaseSave (Some a)] (super_save (Some a))
    | Ok (Some f) =>
        match f (Some a) with
        | Ok _ =>
            Traced [Probe (Some a); BaseSave (Some a)] (super_save (Some a))
        | Raise ValueError =>
            Traced [Probe (Some a);
                    BaseSave (Some {| wall := wall a; dt_tzinfo := None |})]
                   (super_save (Some {| wall := wall a; dt_tzinfo := None |}))
        | Raise e => Traced [Probe (Some a)] (Raise e)
        end
    end.
Proof.
  intros Ha. unfold get_db_prep_save. rewrite Ha. cbn.
  destruct (probe_of connection) as [[f |] | e]; cbn; try reflexivity.
  destruct (f (Some a)) as [u | e]; cbn; [reflexivity |].
  destruct e; reflexivity.
Qed.

(** A datetime that lines 91-95 cannot convert ends the call there. *)
Lemma get_db_prep_save_unconverted super_save d e connection :
  convert_to_default d = Raise e ->
  get_db_prep_save super_save (Some d) connection = Traced [] (Raise e).
Proof. intros He. unfold get_db_prep_save. now rewrite He. Qed.

(** Everything [get_db_prep_save] does with [None]. *)
Lemma get_db_prep_save_None super_save connection :
  get_db_prep_save super_save None connection =
    match probe_of connection with
    | Raise e => Traced [] (Raise e)
    | Ok None => Traced [BaseSave None] (super_save None)
    | Ok (Some f) =>
        match f None with
        | Ok _ => Traced [Probe None; BaseSave None] (super_save None)
        | Raise ValueError => Traced [Probe None] (Raise AttributeError)
        | Raise e => Traced [Probe None] (Raise e)
        end
    end.
Proof.
  unfold get_db_prep_save. cbn.
  destruct (probe_of connection) as [[f |] | e]; cbn; try reflexivity.
  destruct (f None) as [u | e]; cbn; [reflexivity |].
  destruct e; reflexivity.
Qed.

(** For [None], nothing but [None] is handed on. *)
Lemma None_trace super_save connection :
  Forall (fun e => e = Probe None \/ e = BaseSave None)
         (trace (get_db_prep_save super_save None connection)).
Proof.
  rewrite get_db_prep_save_None.
  destruct (probe_of connection) as [[f |] | e];
    [destruct (f None) as [u | []] | |]; cbn;
    repeat (apply List.Forall_cons; [auto |]); apply List.Forall_nil.
Qed.

Lemma probe_of_attr (c : Connection) o f :
  ops c = Attr o -> value_to_db_datetime o = Attr f ->
  probe_of (Some c) = Ok (Some f).
Proof. intros Ho Hf. unfold probe_of. rewrite Ho. cbn. now rewrite Hf. Qed.

Lemma get_db_prep_lookup_datetime super_lookup d :
  get_db_prep_lookup super_lookup (Some d) =
    match convert_to_default d with
    | Ok a => Traced [BaseLookup (Some a)] (super_lookup (Some a))
    | Raise e => Traced [] (Raise e)
    end.
Proof.
  unfold get_db_prep_lookup. now destruct (convert_to_default d).
Qed.

End storage.

(** Goals [Forall P [e1; ..; en]] over an explicit trace. *)
Ltac trace_forall :=
  repeat (apply List.Forall_cons; [cbn; auto |]); apply List.Forall_nil.

Section storage_claims.
Context `{Globals}.
Context {dbvalue : Type}.
Implicit Types (super_save super_lookup : option datetime -> result dbvalue).

(** C1.  Whatever [get_db_prep_save] is given, and whatever the connection
    is.  A datetime that lines 91-95 cannot convert is not accepted: the
    call raises and nothing is handed on.  Otherwise the datetime is first
    converted to the default zone: a naive value keeps its reading and gets
    the instance of the default zone that [localize] chose; an aware value
    whose tzinfo is the default zone object is kept; any other aware value
    becomes its UTC reading plus the default zone's offset in force then,
    with the instance for that offset; the point in time is kept.  Every
    value handed to the probe or to the base class is that aware value, or
    its reading with no tzinfo, so a naive value that reaches storage reads
    the default zone's clock.  For [None] no datetime is handed on at
    all. *)
Theorem C1_storage_in_default_zone super_save (value : option datetime)
    connection :
  match value with
  | Some d =>
      match convert_to_default d with
      | Ok a =>
          converted d a
          /\ is_aware a = true
          /\ instant a = point_in_time d
          /\ Forall (handed_in_default_terms a)
                    (trace (get_db_prep_save super_save (Some d) connection))
      | Raise e =>
          get_db_prep_save super_save (Some d) connection
          = Traced [] (Raise e)
      end
  | None =>
      Forall (fun e => e = Probe None \/ e = BaseSave None)
             (trace (get_db_prep_save super_save None connection))
  end.
Proof.
  destruct value as [d |]; [| apply None_trace].
  destruct (convert_to_default d) as [a | e] eqn:Ha;
    [| now apply get_db_prep_save_unconverted].
  pose proof (proj1 (convert_to_default_Ok d a) Ha) as Hc.
  destruct (converted_instant d a Hc) as [Hi Haw].
  split; [assumption |]. split; [assumption |]. split; [assumption |].
  rewrite (get_db_prep_save_datetime super_save d a connection Ha).
  destruct (probe_of connection) as [[f |] | e]; cbn.
  - destruct (f (Some a)) as [u | e]; cbn.
    + trace_forall.
    + destruct e; cbn; trace_forall.
  - trace_forall.
  - trace_forall.
Qed.

(** C4.  When the probe [connection.ops.value_to_db_datetime] answers the
    converted, aware value with [ValueError], the value is degraded to a
    naive one, the reading of the converted value (a reading in terms of
    the default zone, as [converted] spells out) with no tzinfo, and the
    base class is called exactly once, with the degraded value; the outcome of the
    whole call is the outcome of that one call, so a failure reaches the
    caller only if the degraded value is refused as well. *)
Theorem C4_rejected_value_degraded_once super_save d a (c : Connection) o f :
  ops c = Attr o ->
  value_to_db_datetime o = Attr f ->
  convert_to_default d = Ok a ->
  f (Some a) = Raise ValueError ->
  converted d a
  /\ is_aware a = true
  /\ is_naive {| wall := wall a; dt_tzinfo := None |} = true
  /\ get_db_prep_save super_save (Some d) (Some c) =
       Traced [Probe (Some a);
               BaseSave (Some {| wall := wall a; dt_tzinfo := None |})]
              (super_save (Some {| wall := wall a; dt_tzinfo := None |})).
Proof.
  intros Ho Hf Ha Hrej.
  pose proof (proj1 (convert_to_default_Ok d a) Ha) as Hc.
  destruct (converted_instant d a Hc) as [_ Haw].
  split; [assumption |]. split; [assumption |]. split; [reflexivity |].
  rewrite (get_db_prep_save_datetime super_save d a (Some c) Ha).
  rewrite (probe_of_attr c o f Ho Hf). now rewrite Hrej.
Qed.

(** C9.  [get_db_prep_lookup] reads [value.tzinfo] with no test for [None]:
    for [None] it raises [AttributeError] and the base class is not
    reached.  A datetime goes through the conversion of lines 112-115: when
    that completes the converted value is handed to the base class, and
    when it raises the call raises.  [get_db_prep_save] does accept
    [None]. *)
Theorem C9_lookup_rejects_None super_lookup super_save :
  get_db_prep_lookup super_lookup None = Traced [] (Raise AttributeError)
  /\ (forall d,
        get_db_prep_lookup super_lookup (Some d) =
          match convert_to_default d with
          | Ok a => Traced [BaseLookup (Some a)] (super_lookup (Some a))
          | Raise e => Traced [] (Raise e)
          end)
  /\ (forall d a,
        converted d a ->
        get_db_prep_lookup super_lookup (Some d) =
          Traced [BaseLookup (Some a)] (super_lookup (Some a)))
  /\ get_db_prep_save super_save None None =
       Traced [BaseSave None] (super_save None).
Proof.
  split; [reflexivity |]. split; [| split; [| reflexivity]].
  - intros d. apply get_db_prep_lookup_datetime.
  - intros d a Hc. apply convert_to_default_Ok in Hc.
    rewrite get_db_prep_lookup_datetime. now rewrite Hc.
Qed.

(** C10.  For [None], [get_db_prep_save] hands nothing but [None] to its
    collaborators: nothing is localized, converted or stripped.  With no
    connection, or with a connection that has no probe, the base class
    receives [None] at once; with a probe that accepts [None] it receives
    [None] after the probe; a failure on the way to the probe or in it
    ends the call. *)
Theorem C10_None_passed_through super_save connection :
  let r := get_db_prep_save super_save None connection in
  Forall (fun e => e = Probe None \/ e = BaseSave None) (trace r)
  /\ match probe_of connection with
     | Ok None => r = Traced [BaseSave None] (super_save None)
     | Ok (Some f) =>
         match f None with
         | Ok _ => r = Traced [Probe None; BaseSave None] (super_save None)
         | Raise _ => trace r = [Probe None] /\ raises (outcome r)
         end
     | Raise e => r = Traced [] (Raise e)
     end.
Proof.
  cbn zeta. split; [apply None_trace |].
  rewrite get_db_prep_save_None.
  destruct (probe_of connection) as [[f |] | e]; cbn; try reflexivity.
  destruct (f None) as [u | e]; cbn; [reflexivity |].
  destruct e; cbn; (split; [reflexivity | exact I]).
Qed.

End storage_claims.

Lemma C4_witness :
  let edt := {| zone := "America/New_York"; _utcoffset := hours (-4);
                _dst := hours 1; _tzname := "EDT" |} in
  let d := {| wall := reading 2021 3 15 6 0 0; dt_tzinfo := Some edt |} in
  let a := {| wall := reading 2021 3 15 10 0 0;
              dt_tzinfo := Some {| zone := "UTC"; _utcoffset := 0;
                                   _dst := 0; _tzname := "UTC" |} |} in
  let degraded := {| wall := reading 2021 3 15 10 0 0; dt_tzinfo := None |} in
  (ops Example.mysql
     = Attr {| value_to_db_datetime := Attr Example.mysql_value_to_db_datetime |}
   /\ @convert_to_default Example.globals_utc d = Ok a
   /\ Example.mysql_value_to_db_datetime (Some a) = Raise ValueError)
  /\ (@converted Example.globals_utc d a
      /\ is_aware a = true
      /\ is_naive degraded = true
      /\ @get_db_prep_save Example.globals_utc _ Example.store (Some d)
           (Some Example.mysql) =
         Traced [Probe (Some a); BaseSave (Some degraded)]
                (Example.store (Some degraded))).
Proof.
  intros edt d a degraded. split.
  - repeat split; reflexivity.
  - apply (@C4_rejected_value_degraded_once Example.globals_utc _
             Example.store d a Example.mysql
             {| value_to_db_datetime := Attr Example.mysql_value_to_db_datetime |}
             Example.mysql_value_to_db_datetime); reflexivity.
Defined.

(** When the base class refuses the degraded value as well, its error is
    the outcome of the call. *)
Lemma degraded_value_refused :
  let d := {| wall := reading 2021 3 15 10 0 0; dt_tzinfo := None |} in
  outcome (@get_db_prep_save Example.globals_utc (option datetime)
             (fun _ => Raise DatabaseError) (Some d) (Some Example.mysql))
  = Raise DatabaseError.
Proof. reflexivity. Qed.

(* ===================================================================== *)
(** ** set_dtz_field *)
(* ===================================================================== *)

Section setter.
Context `{PytzLib} `{Globals}.

(** Lines 137-138 complete exactly with the value made aware. *)
Lemma made_aware_Ok (d dt : datetime) :
  (if is_naive d then localize default_tz d else Ok d) = Ok dt
  <-> made_aware d dt.
Proof.
  unfold made_aware, is_aware, is_naive.
  destruct (dt_tzinfo d) as [t |] eqn:Hd; cbn.
  - split.
    + intros [= <-]. right. auto.
    + intros [[Hn _] | [_ ->]]; [congruence | reflexivity].
  - rewrite localize_Ok. split; [auto |].
    intros [Hl | [Hf _]]; [assumption | discriminate].
Qed.

Lemma made_aware_instant (d dt : datetime) :
  made_aware d dt -> is_aware dt = true /\ instant dt = point_in_time d.
Proof.
  unfold point_in_time. intros [(Hd & i & Hi & ->) | [Haw ->]].
  - rewrite Hd, Hi. split; reflexivity.
  - split; [assumption |]. unfold instant, is_aware, is_naive in *.
    destruct (dt_tzinfo d); [reflexivity | discriminate].
Qed.

(** With the zone resolved, the setter completes exactly when the value can
    be made aware and moved to the zone, and then stores the moved value. *)
Lemma set_dtz_field_resolved field instance d tz instance' :
  resolve_time_zone field instance = Ok (PyTz tz) ->
  set_dtz_field field instance (Some d) = Ok instance'
  <-> assigned field instance d tz instance'.
Proof.
  intros Hres. unfold set_dtz_field, assigned.
  destruct (if is_naive d then localize default_tz d else Ok d)
    as [dt | e] eqn:Hdt; cbn.
  - apply made_aware_Ok in Hdt. rewrite Hres. cbn.
    destruct (astimezone dt tz) as [r | e] eqn:Hr; cbn.
    + apply astimezone_Ok in Hr. split.
      * intros [= <-]. exists dt, r. auto.
      * intros (dt' & r' & Hdt' & Hr' & ->).
        apply made_aware_Ok in Hdt, Hdt'. rewrite Hdt in Hdt'.
        injection Hdt' as <-.
        apply astimezone_Ok in Hr, Hr'. rewrite Hr in Hr'.
        injection Hr' as <-. reflexivity.
    + split; [discriminate |].
      intros (dt' & r' & Hdt' & Hr' & _).
      apply made_aware_Ok in Hdt, Hdt'. rewrite Hdt in Hdt'.
      injection Hdt' as <-. apply astimezone_Ok in Hr'. congruence.
  - split; [discriminate |].
    intros (dt' & r' & Hdt' & _). apply made_aware_Ok in Hdt'. congruence.
Qed.

(** With the resolution failing, the setter fails: with the error of lines
    137-138 if there is one, otherwise with the error of the resolution. *)
Lemma set_dtz_field_unresolved field instance d e :
  resolve_time_zone field instance = Raise e ->
  set_dtz_field field instance (Some d) =
    match (if is_naive d then localize default_tz d else Ok d) with
    | Ok _ => Raise e
    | Raise e' => Raise e'
    end.
Proof.
  intros Hres. unfold set_dtz_field.
  destruct (if is_naive d then localize default_tz d else Ok d); cbn;
    [now rewrite Hres | reflexivity].
Qed.

Lemma set_dtz_field_not_tzinfo field instance d o :
  resolve_time_zone field instance = Ok o ->
  (forall tz, o <> PyTz tz) ->
  set_dtz_field field instance (Some d) =
    match (if is_naive d then localize default_tz d else Ok d) with
    | Ok _ => Raise TypeError
    | Raise e' => Raise e'
    end.
Proof.
  intros Hres Ho. unfold set_dtz_field.
  destruct (if is_naive d then localize default_tz d else Ok d); cbn;
    [| reflexivity].
  rewrite Hres. cbn. destruct o; try reflexivity. now destruct (Ho tz).
Qed.

Lemma get_after_set field instance v :
  get_dtz_field field (setattr instance (dt_field_name field) v) = Ok v.
Proof.
  unfold get_dtz_field, getattr, setattr. cbn.
  now rewrite lookup_insert_eq.
Qed.

(** A setter that completes has assigned one attribute. *)
Lemma set_dtz_field_Ok_inv field instance dt instance' :
  set_dtz_field field instance dt = Ok instance' ->
  exists v, instance' = setattr instance (dt_field_name field) v.
Proof.
  unfold set_dtz_field. destruct dt as [d |].
  - destruct (if is_naive d then localize default_tz d else Ok d)
      as [dt | e]; cbn; [| discriminate].
    destruct (resolve_time_zone field instance) as [o | e]; cbn;
      [| discriminate].
    destruct (astimezone_obj dt o) as [r | e]; cbn; [| discriminate].
    intros [= <-]. eauto.
  - intros [= <-]. eauto.
Qed.

(** With the zone resolved, the attribute reads, after the assignment, as
    the value made aware and moved to the zone. *)
Lemma on_read_resolved field instance d tz r :
  resolve_time_zone field instance = Ok (PyTz tz) ->
  on_read field instance (Some d) = Ok (Some r)
  <-> exists dt, made_aware d dt /\ moved_to tz dt r.
Proof.
  intros Hres. unfold on_read. split.
  - destruct (set_dtz_field field instance (Some d)) as [i' |] eqn:Hset; cbn;
      [| discriminate].
    apply (set_dtz_field_resolved field instance d tz i' Hres) in Hset.
    destruct Hset as (dt & r' & Hdt & Hr' & ->). intros Hget.
    change (get_dtz_field field
              (setattr instance (dt_field_name field) (Some r')) = Ok (Some r))
      in Hget.
    rewrite get_after_set in Hget. injection Hget as <-. eauto.
  - intros (dt & Hdt & Hr).
    assert (Hset : set_dtz_field field instance (Some d) =
                   Ok (setattr instance (dt_field_name field) (Some r))).
    { apply (set_dtz_field_resolved field instance d tz _ Hres).
      exists dt, r. auto. }
    rewrite Hset. cbn. apply get_after_set.
Qed.

Lemma timezone_or_default_unknown (s : string) :
  tz_lookup s = None -> timezone_or_default (PyStr s) = PyTz default_tz.
Proof. intros Hs. unfold timezone_or_default. cbn. now rewrite Hs. Qed.

Lemma timezone_or_default_known (s : string) tz :
  tz_lookup s = Some tz -> timezone_or_default (PyStr s) = PyTz tz.
Proof. intros Hs. unfold timezone_or_default. cbn. now rewrite Hs. Qed.

Lemma load_name_model_instance (instance : Model) :
  load_name "model_instance" instance = Raise NameError.
Proof. reflexivity. Qed.

Lemma resolve_relational field instance relation :
  timezone field = PyStr relation ->
  resolve_time_zone field instance = Raise NameError.
Proof.
  intros Htz. unfold resolve_time_zone. rewrite Htz. cbn.
  now rewrite load_name_model_instance.
Qed.

Lemma resolve_static name tz instance :
  resolve_time_zone (static_field name tz) instance = Ok (PyTz tz).
Proof. reflexivity. Qed.

End setter.

Section setter_claims.
Context `{PytzLib} `{Globals}.

(** C2 (as the code has it).  For a Dynamic policy the outcome follows the
    callable.  When it returns a string that is no known name, or [None],
    the zone is the default zone; when it returns a known name or a zone
    object, that zone is used; in both cases the setter completes exactly
    when the value can be made aware and moved to that zone within the range
    of datetime, and it then stores the moved value.  When the callable
    raises, the setter never completes, and once lines 137-138 are passed
    the exception of the callable is what leaves it: the call of line 156
    is outside the [try] block.  A result that is neither of these makes
    [astimezone] raise [TypeError]. *)
Theorem C2_dynamic_policy_by_callable_outcome name f instance d :
  let field := dynamic_field name f in
  match f tt with
  | Raise e =>
      resolve_time_zone field instance = Raise e
      /\ (forall instance',
            set_dtz_field field instance (Some d) <> Ok instance')
      /\ (forall dt, made_aware d dt ->
                     set_dtz_field field instance (Some d) = Raise e)
  | Ok PyNone =>
      resolve_time_zone field instance = Ok (PyTz default_tz)
      /\ (forall instance',
            set_dtz_field field instance (Some d) = Ok instance'
            <-> assigned field instance d default_tz instance')
  | Ok (PyStr s) =>
      match tz_lookup s with
      | None =>
          resolve_time_zone field instance = Ok (PyTz default_tz)
          /\ (forall instance',
                set_dtz_field field instance (Some d) = Ok instance'
                <-> assigned field instance d default_tz instance')
      | Some tz =>
          resolve_time_zone field instance = Ok (PyTz tz)
          /\ (forall instance',
                set_dtz_field field instance (Some d) = Ok instance'
                <-> assigned field instance d tz instance')
      end
  | Ok (PyTz tz) =>
      resolve_time_zone field instance = Ok (PyTz tz)
      /\ (forall instance',
            set_dtz_field field instance (Some d) = Ok instance'
            <-> assigned field instance d tz instance')
  | Ok o =>
      resolve_time_zone field instance = Ok o
      /\ (forall instance',
            set_dtz_field field instance (Some d) <> Ok instance')
      /\ (forall dt, made_aware d dt ->
                     set_dtz_field field instance (Some d) = Raise TypeError)
  end.
Proof.
  cbn zeta.
  assert (Hres : resolve_time_zone (dynamic_field name f) instance =
                 match f tt with
                 | Raise e => Raise e
                 | Ok PyNone => Ok (PyTz default_tz)
                 | Ok (PyStr s) => Ok (timezone_or_default (PyStr s))
                 | Ok o => Ok o
                 end).
  { unfold resolve_time_zone. cbn.
    destruct (f tt) as [[| s | n | tz | g] | e]; cbn; try reflexivity.
    unfold timezone_or_default. cbn. now destruct (tz_lookup s). }
  assert (Hfail : forall e,
            set_dtz_field (dynamic_field name f) instance (Some d) =
              match (if is_naive d then localize default_tz d else Ok d) with
              | Ok _ => Raise e
              | Raise e' => Raise e'
              end ->
            (forall instance',
               set_dtz_field (dynamic_field name f) instance (Some d)
               <> Ok instance')
            /\ (forall dt, made_aware d dt ->
                  set_dtz_field (dynamic_field name f) instance (Some d)
                  = Raise e)).
  { intros e Hset. split.
    - intros instance'. rewrite Hset.
      now destruct (if is_naive d then localize default_tz d else Ok d).
    - intros dt Hdt. apply made_aware_Ok in Hdt. now rewrite Hset, Hdt. }
  destruct (f tt) as [[| s | n | tz | g] | e].
  - split; [assumption |]. intros instance'.
    now apply set_dtz_field_resolved.
  - destruct (tz_lookup s) as [tz |] eqn:Hs.
    + rewrite (timezone_or_default_known s tz Hs) in Hres.
      split; [assumption |]. intros instance'.
      now apply set_dtz_field_resolved.
    + rewrite (timezone_or_default_unknown s Hs) in Hres.
      split; [assumption |]. intros instance'.
      now apply set_dtz_field_resolved.
  - split; [assumption |]. apply Hfail.
    now apply (set_dtz_field_not_tzinfo _ _ _ (PyInt n)).
  - split; [assumption |]. intros instance'.
    now apply set_dtz_field_resolved.
  - split; [assumption |]. apply Hfail.
    now apply (set_dtz_field_not_tzinfo _ _ _ (PyCallable g)).
  - split; [assumption |]. apply Hfail.
    now apply set_dtz_field_unresolved.
Qed.

(** C3 (what the code does).  For a Relational policy the lookup reads the
    name [model_instance], which is bound nowhere: [NameError] is raised
    before any row is fetched, outside every [try] block.  Assigning a
    datetime therefore never completes: once lines 137-138 are passed (an
    aware value passes them as it is) [NameError] leaves the setter, and a
    naive value that cannot be localized fails with the error of line 138
    before that.  Nothing is looked up by the record's primary key and
    nothing falls back to the default zone. *)
Theorem C3_relational_policy_raises_NameError name relation instance d :
  resolve_time_zone (relational_field name relation) instance = Raise NameError
  /\ set_dtz_field (relational_field name relation) instance (Some d) =
       match (if is_naive d then localize default_tz d else Ok d) with
       | Ok _ => Raise NameError
       | Raise e => Raise e
       end
  /\ (is_aware d = true ->
      set_dtz_field (relational_field name relation) instance (Some d)
      = Raise NameError)
  /\ (forall instance',
        set_dtz_field (relational_field name relation) instance (Some d)
        <> Ok instance').
Proof.
  assert (Hres : resolve_time_zone (relational_field name relation) instance
                 = Raise NameError) by now apply (resolve_relational _ _ relation).
  pose proof (set_dtz_field_unresolved _ _ d _ Hres) as Hset.
  split; [assumption |]. split; [assumption |]. split.
  - intros Haw. rewrite Hset. unfold is_aware in Haw.
    destruct (is_naive d); [discriminate | reflexivity].
  - intros instance'. rewrite Hset.
    now destruct (if is_naive d then localize default_tz d else Ok d).
Qed.

End setter_claims.

(** C2, the claim as written, fails: a Dynamic policy whose callable raises
    makes the setter raise the same exception; no default zone is resolved. *)
Lemma C2_counterexample :
  let boom := fun _ : unit => @Raise pyobj (OtherError "boom") in
  let d := {| wall := reading 2021 3 15 10 0 0; dt_tzinfo := None |} in
  @resolve_time_zone Example.lib Example.globals_utc
     (dynamic_field "when" boom) Example.empty_record
   = Raise (OtherError "boom")
  /\ @set_dtz_field Example.lib Example.globals_utc
       (dynamic_field "when" boom) Example.empty_record (Some d)
     = Raise (OtherError "boom")
  /\ @resolve_time_zone Example.lib Example.globals_utc
       (dynamic_field "when" boom) Example.empty_record
     <> Ok (PyTz Pytz.UTC).
Proof.
  intros boom d. repeat split; try reflexivity. discriminate.
Qed.

(** A Dynamic policy whose callable returns a name pytz does not know: the
    value is stored in the default zone. *)
Lemma dynamic_policy_unknown_name_example :
  let f := fun _ : unit => Ok (PyStr "Mars/Olympus") in
  let edt := {| zone := "America/New_York"; _utcoffset := hours (-4);
                _dst := hours 1; _tzname := "EDT" |} in
  let d := {| wall := reading 2021 3 15 6 0 0; dt_tzinfo := Some edt |} in
  @on_read Example.lib Example.globals_utc (dynamic_field "when" f)
     Example.empty_record (Some d)
  = Ok (Some {| wall := reading 2021 3 15 10 0 0;
                dt_tzinfo := Some {| zone := "UTC"; _utcoffset := 0;
                                     _dst := 0; _tzname := "UTC" |} |}).
Proof. vm_compute. reflexivity. Qed.

(** The failing input of C3: a relation name, a record, a naive datetime. *)
Lemma relational_policy_example :
  let d := {| wall := reading 2021 3 15 10 0 0; dt_tzinfo := None |} in
  let row : gmap string pyobj := {[ "tz"%string := PyStr "Asia/Tokyo" ]} in
  let record :=
    {| pk := 1; attrs := ∅; _default_manager := {[ 1 := row ]} |} in
  @set_dtz_field Example.lib Example.globals_utc
    (relational_field "when" "tz") record (Some d)
  = Raise NameError.
Proof. reflexivity. Qed.

(* ===================================================================== *)
(** ** Storing and reading back *)
(* ===================================================================== *)

Lemma same_second_refl (p : Z) : same_second p p.
Proof. reflexivity. Qed.

(** An aware value whose UTC reading and whose reading in zone [tz] lie
    within the range of datetime can be moved to [tz]. *)
Lemma moved_to_exists (tz : tzobj) (dt : datetime) (p : Z) :
  instant dt = Some p ->
  datetime_min <= p <= datetime_max ->
  datetime_min <= p + ti_utcoffset (tz_info_at_utc tz p) <= datetime_max ->
  exists r, moved_to tz dt r /\ instant r = Some p.
Proof.
  unfold instant, utc_reading. destruct (dt_tzinfo dt) as [t |] eqn:Ht;
    [| discriminate].
  intros [= <-] Hu Hw.
  destruct (decide (t = tz_self tz)) as [Heq | Hne].
  - exists dt. split.
    + exists t. split; [assumption |]. left. auto.
    + unfold instant, utc_reading. now rewrite Ht.
  - eexists. split.
    + exists t. split; [assumption |]. right. split; [assumption |].
      cbn zeta. split; [exact Hu | split; [exact Hw | reflexivity]].
    + unfold instant, utc_reading. cbn. f_equal. lia.
Qed.

Section roundtrip.
Context `{PytzLib} `{Globals}.
Context {dbvalue : Type}.
Implicit Types (super_save : option datetime -> result dbvalue).

(** The datetimes that can reach the base class. *)
Lemma saved_values super_save d a connection v :
  convert_to_default d = Ok a ->
  In (BaseSave (Some v))
     (trace (get_db_prep_save super_save (Some d) connection)) ->
  v = a \/ v = {| wall := wall a; dt_tzinfo := None |}.
Proof.
  intros Ha.
  rewrite (get_db_prep_save_datetime super_save d a connection Ha).
  destruct (probe_of connection) as [[f |] | e];
    [destruct (f (Some a)) as [u | []] | |];
    cbn; intros Hin; decompose [or] Hin;
    try discriminate; try contradiction; simplify_eq; auto.
Qed.

(** The value converted from a naive datetime carries the offset that
    localizing its reading chooses. *)
Lemma converted_naive_unambiguous (d a : datetime) :
  dt_tzinfo d = None -> converted d a -> reading_unambiguous a.
Proof.
  intros Hd [(_ & i & Hi & ->) | (t & Ht & _)]; [| congruence].
  eexists; exists i. cbn. split; [reflexivity |]. split; [assumption | reflexivity].
Qed.

(** C5 (as the code has it).  A datetime is stored under a Static policy
    and the value that reached the base class is read back.  Provided
    that, when the stored value was stripped of an aware original's zone,
    localizing the stored reading in the default zone chooses the offset the
    converted value carried, and provided the UTC reading of the original
    and its reading in the policy's zone lie within the range of datetime,
    the read completes and the value read is the stored value, made aware
    again, moved to the policy's zone; it denotes the point in time of the
    original exactly, and so to the second. *)
Theorem C5_store_then_read_static
    super_save d a connection name tz instance v p :
  convert_to_default d = Ok a ->
  In (BaseSave (Some v))
     (trace (get_db_prep_save super_save (Some d) connection)) ->
  (dt_tzinfo v = None -> is_aware d = true -> reading_unambiguous a) ->
  point_in_time d = Some p ->
  datetime_min <= p <= datetime_max ->
  datetime_min <= p + ti_utcoffset (tz_info_at_utc tz p) <= datetime_max ->
  exists r dt q,
    on_read (static_field name tz) instance (Some v) = Ok (Some r)
    /\ made_aware v dt
    /\ moved_to tz dt r
    /\ instant r = Some q
    /\ q = p
    /\ same_second q p.
Proof.
  intros Ha Hin Hamb Hp Hu Hw.
  pose proof (proj1 (convert_to_default_Ok d a) Ha) as Hc.
  destruct (converted_instant d a Hc) as [Hia Haw].
  rewrite Hp in Hia.
  assert (Hdt : exists dt, made_aware v dt /\ instant dt = Some p).
  { destruct (saved_values super_save d a connection v Ha Hin) as [-> | ->].
    - exists a. split; [right; auto | assumption].
    - assert (Hun : reading_unambiguous a).
      { destruct (dt_tzinfo d) as [td |] eqn:Hd.
        - apply Hamb; [reflexivity |]. unfold is_aware, is_naive.
          now rewrite Hd.
        - now apply (converted_naive_unambiguous d a Hd). }
      destruct Hun as (t & i & Ht & Hi & Hoff).
      eexists. split.
      + left. split; [reflexivity |]. exists i. cbn. split; [exact Hi |].
        reflexivity.
      + unfold instant, utc_reading in *. cbn. rewrite Ht in Hia.
        rewrite Hoff. exact Hia. }
  destruct Hdt as (dt & Hdt & Hidt).
  destruct (moved_to_exists tz dt p Hidt Hu Hw) as (r & Hr & Hir).
  exists r, dt, p. split; [| repeat split; assumption || reflexivity].
  apply (on_read_resolved (static_field name tz) instance v tz r
           (resolve_static name tz instance)).
  eauto.
Qed.

(** With a default zone of fixed offset the first proviso always holds. *)
Lemma reading_unambiguous_fixed_offset (off : Z) :
  (forall w, exists i, tz_info_for_local default_tz w = Ok i
                       /\ ti_utcoffset i = off) ->
  (forall u, ti_utcoffset (tz_info_at_utc default_tz u) = off) ->
  ti_utcoffset (tz_own_info default_tz) = off ->
  forall d a, convert_to_default d = Ok a -> reading_unambiguous a.
Proof.
  intros Hl Hu Ho d a Ha. apply convert_to_default_Ok in Ha.
  destruct Ha as [(Hd & i & Hi & ->) | (t & Ht & [[-> ->] | (_ & _ & _ & ->)])].
  - eexists; exists i. cbn. split; [reflexivity |]. split; [assumption | reflexivity].
  - destruct (Hl (wall d)) as (i & Hi & Hoff).
    eexists; exists i. split; [exact Ht |]. split; [assumption |].
    cbn. now rewrite Hoff, Ho.
  - cbn zeta. destruct (Hl (wall d - _utcoffset t
                            + ti_utcoffset (tz_info_at_utc default_tz
                                              (wall d - _utcoffset t))))
      as (i & Hi & Hoff).
    eexists; exists i. cbn. split; [reflexivity |]. split; [exact Hi |].
    now rewrite Hoff, Hu.
Qed.

End roundtrip.

Lemma C5_witness :
  let edt := {| zone := "America/New_York"; _utcoffset := hours (-4);
                _dst := hours 1; _tzname := "EDT" |} in
  let utc := {| zone := "UTC"; _utcoffset := 0; _dst := 0;
                _tzname := "UTC" |} in
  let d := {| wall := reading 2021 3 15 6 0 0; dt_tzinfo := Some edt |} in
  let a := {| wall := reading 2021 3 15 10 0 0; dt_tzinfo := Some utc |} in
  let v := {| wall := reading 2021 3 15 10 0 0; dt_tzinfo := None |} in
  let p := reading 2021 3 15 10 0 0 in
  (@convert_to_default Example.globals_utc d = Ok a
   /\ In (BaseSave (Some v))
         (trace (@get_db_prep_save Example.globals_utc _ Example.store
                   (Some d) (Some Example.mysql)))
   /\ @reading_unambiguous Example.globals_utc a
   /\ @point_in_time Example.globals_utc d = Some p)
  /\ exists r dt q,
       @on_read Example.lib Example.globals_utc
         (static_field "when" Pytz.New_York) Example.empty_record (Some v)
       = Ok (Some r)
       /\ @made_aware Example.globals_utc v dt
       /\ moved_to Pytz.New_York dt r
       /\ instant r = Some q
       /\ q = p
       /\ same_second q p.
Proof.
  intros edt utc d a v p.
  assert (Hun : @reading_unambiguous Example.globals_utc a).
  { exists utc, Pytz.utc_info. repeat split. }
  split.
  - split; [reflexivity |]. split; [| split; [exact Hun | reflexivity]].
    vm_compute. right. left. reflexivity.
  - apply (@C5_store_then_read_static Example.lib Example.globals_utc _
             Example.store d a (Some Example.mysql) "when" Pytz.New_York
             Example.empty_record v p).
    + reflexivity.
    + vm_compute. right. left. reflexivity.
    + intros _ _. exact Hun.
    + reflexivity.
    + vm_compute. split; discriminate.
    + vm_compute. split; discriminate.
Defined.

(** C5, the claim as written, fails.  The default zone is America/New_York
    and the connection refuses aware values.  The instant 2021-11-07 05:30
    UTC is 01:30 in daylight time; it is stored as the naive reading 01:30;
    read back, that reading is localized as 01:30 standard time, which is
    06:30 UTC: one hour after the original. *)
Lemma C5_counterexample :
  let d := {| wall := reading 2021 11 7 5 30 0;
              dt_tzinfo := Some (tz_self Pytz.UTC) |} in
  let v := {| wall := reading 2021 11 7 1 30 0; dt_tzinfo := None |} in
  let r := {| wall := reading 2021 11 7 6 30 0;
              dt_tzinfo := Some (tz_self Pytz.UTC) |} in
  In (BaseSave (Some v))
     (trace (@get_db_prep_save Example.globals_new_york _ Example.store
               (Some d) (Some Example.mysql)))
  /\ @on_read Example.lib Example.globals_new_york
       (static_field "when" Pytz.UTC) Example.empty_record (Some v)
     = Ok (Some r)
  /\ @point_in_time Example.globals_new_york d
     = Some (reading 2021 11 7 5 30 0)
  /\ instant r = Some (reading 2021 11 7 5 30 0 + hours 1)
  /\ ~ same_second (reading 2021 11 7 6 30 0) (reading 2021 11 7 5 30 0).
Proof.
  intros d v r. split; [| split; [| split; [| split]]].
  - vm_compute. right. left. reflexivity.
  - vm_compute. reflexivity.
  - vm_compute. reflexivity.
  - vm_compute. reflexivity.
  - vm_compute. discriminate.
Qed.

(** The proviso of C5 is about the offset, not about how often the clock
    shows a reading: an aware value whose tzinfo is the zone object of
    America/New_York itself carries the zone's local mean time (-4:56) and
    is stored unchanged; stripped and read back, its reading is localized
    with standard time (-5:00) and lands four minutes later. *)
Lemma stripped_zone_object_reading_moves :
  let d := {| wall := reading 2021 1 15 10 0 0;
              dt_tzinfo := Some (tz_self Pytz.New_York) |} in
  let v := {| wall := reading 2021 1 15 10 0 0; dt_tzinfo := None |} in
  @convert_to_default Example.globals_new_york d = Ok d
  /\ In (BaseSave (Some v))
        (trace (@get_db_prep_save Example.globals_new_york _ Example.store
                  (Some d) (Some Example.mysql)))
  /\ @point_in_time Example.globals_new_york d
     = Some (reading 2021 1 15 14 56 0)
  /\ (exists r,
        @on_read Example.lib Example.globals_new_york
          (static_field "when" Pytz.UTC) Example.empty_record (Some v)
        = Ok (Some r)
        /\ instant r = Some (reading 2021 1 15 15 0 0)).
Proof.
  intros d v. split; [| split; [| split]].
  - vm_compute. reflexivity.
  - vm_compute. right. left. reflexivity.
  - vm_compute. reflexivity.
  - eexists. split; vm_compute; reflexivity.
Qed.

(** C6.  With [TIME_ZONE = "UTC"] the default zone is UTC, and a field
    declared with ["America/New_York"] holds that zone.  The naive value
    2021-03-15T10:00:00 reaches the base class as 2021-03-15T10:00:00+00:00,
    with no connection and with a connection that accepts aware values, and
    reading that stored value gives 2021-03-15T06:00:00-04:00. *)
Theorem C6_example_utc_new_york :
  let naive := {| wall := reading 2021 3 15 10 0 0; dt_tzinfo := None |} in
  let stored :=
    {| wall := reading 2021 3 15 10 0 0;
       dt_tzinfo := Some {| zone := "UTC"; _utcoffset := 0; _dst := 0;
                            _tzname := "UTC" |} |} in
  let shown :=
    {| wall := reading 2021 3 15 6 0 0;
       dt_tzinfo := Some {| zone := "America/New_York";
                            _utcoffset := hours (-4); _dst := hours 1;
                            _tzname := "EDT" |} |} in
  @import_globals Example.lib
     {| setting_TIME_ZONE := Some "UTC"%string;
        setting_MAX_TIMEZONE_LENGTH := None |} = Ok Example.globals_utc
  /\ @LocalizedDateTimeField_init Example.lib "when" (PyStr "America/New_York")
     = Ok (static_field "when" Pytz.New_York)
  /\ (forall (dbvalue : Type) (super_save : option datetime -> result dbvalue),
        @get_db_prep_save Example.globals_utc _ super_save (Some naive) None
        = Traced [BaseSave (Some stored)] (super_save (Some stored))
        /\ @get_db_prep_save Example.globals_utc _ super_save (Some naive)
             (Some Example.accepting)
           = Traced [Probe (Some stored); BaseSave (Some stored)]
                    (super_save (Some stored)))
  /\ @on_read Example.lib Example.globals_utc
       (static_field "when" Pytz.New_York) Example.empty_record (Some stored)
     = Ok (Some shown).
Proof.
  intros naive stored shown. split; [reflexivity |]. split; [| split].
  - unfold LocalizedDateTimeField_init.
    destruct (decide _) as [_ | Hn]; [reflexivity |].
    exfalso. apply Hn. cbn. set_solver.
  - intros dbvalue super_save. split; reflexivity.
  - vm_compute. reflexivity.
Qed.

(* ===================================================================== *)
(** ** TimeZoneField *)
(* ===================================================================== *)

Lemma longest_upper (known : list string) :
  Forall (fun s => len s <= longest known) known.
Proof.
  unfold longest. induction known as [| s known IH]; cbn.
  - constructor.
  - constructor; [lia |].
    eapply Forall_impl; [exact IH |]. cbn. intros; lia.
Qed.

Lemma longest_attained (known : list string) :
  known <> [] -> exists s, In s known /\ len s = longest known.
Proof.
  unfold longest. induction known as [| s known IH]; [congruence |].
  intros _. cbn. destruct known as [| s' known'].
  - exists s. split; [now left |]. cbn. unfold len. lia.
  - destruct IH as (m & Hin & Hm); [discriminate |].
    destruct (Z.max_spec (len s) (foldr Z.max 0 (len <$> s' :: known')))
      as [[_ ->] | [_ ->]].
    + exists m. split; [now right | exact Hm].
    + exists s. split; [now left | reflexivity].
Qed.

(** C7.  For a known name [z] that resolves to the zone carrying that name,
    [to_python] gives the zone object, and applying [to_python] to that
    result gives the same zone object again. *)
Theorem C7_to_python_idempotent `{PytzLib} (z : string) (tz : tzobj) :
  z ∈ all_timezones_set ->
  tz_lookup z = Some tz ->
  tz_name tz = z ->
  to_python (TzName z) = TzZone tz
  /\ to_python (to_python (TzName z)) = to_python (TzName z).
Proof.
  intros Hin Hz Hname.
  assert (Hfirst : to_python (TzName z) = TzZone tz).
  { unfold to_python, coerce_timezone_value. cbn.
    rewrite decide_True by assumption. now rewrite Hz. }
  split; [assumption |]. rewrite Hfirst.
  unfold to_python, coerce_timezone_value. cbn. rewrite Hname.
  rewrite decide_True by assumption. now rewrite Hz.
Qed.

Lemma C7_witness :
  (("America/New_York" : string) ∈ @all_timezones_set Example.lib
   /\ @tz_lookup Example.lib "America/New_York" = Some Pytz.New_York
   /\ tz_name Pytz.New_York = "America/New_York"%string)
  /\ (@to_python Example.lib (TzName "America/New_York") = TzZone Pytz.New_York
      /\ @to_python Example.lib (@to_python Example.lib (TzName "America/New_York"))
         = @to_python Example.lib (TzName "America/New_York")).
Proof.
  assert (Hin : ("America/New_York" : string) ∈ @all_timezones_set Example.lib).
  { cbn. set_solver. }
  split.
  - split; [exact Hin |]. split; reflexivity.
  - apply (@C7_to_python_idempotent Example.lib "America/New_York"
             Pytz.New_York); [exact Hin | reflexivity | reflexivity].
Defined.

(** C8.  [validate_timezone_max_length] fails, with the configuration error,
    exactly when [max_length] is smaller than the length of the longest known
    identifier, and succeeds otherwise; [longest] is an upper bound of the
    lengths and is attained in a non-empty list; the check with 5 and
    ["America/New_York"] (16 characters) fails; and the constructor of
    [TimeZoneField] runs the check before anything else, so a field is
    built only when the check passes. *)
Theorem C8_validate_max_length `{Globals} `{Zones} :
  (forall max_length known,
     (validate_timezone_max_length max_length known = Raise ConfigurationError
      <-> max_length < longest known)
     /\ (validate_timezone_max_length max_length known = Ok tt
         <-> longest known <= max_length)
     /\ Forall (fun s => len s <= longest known) known
     /\ (known <> [] -> exists s, In s known /\ len s = longest known))
  /\ len "America/New_York" = 16
  /\ validate_timezone_max_length 5 ["America/New_York"%string]
     = Raise ConfigurationError
  /\ (forall TIME_ZONE kwargs,
        (TimeZoneField_init TIME_ZONE kwargs = Raise ConfigurationError
         <-> MAX_TIMEZONE_LENGTH < longest ALL_TIMEZONE_CHOICES)
        /\ ((exists cfg, TimeZoneField_init TIME_ZONE kwargs = Ok cfg)
            <-> longest ALL_TIMEZONE_CHOICES <= MAX_TIMEZONE_LENGTH)).
Proof.
  split; [| split; [reflexivity | split; [reflexivity |]]].
  - intros max_length known. unfold validate_timezone_max_length.
    destruct (Z.ltb_spec max_length (longest known)) as [Hlt | Hge].
    + repeat split; try (intros; lia || discriminate || reflexivity).
      * apply longest_upper.
      * apply longest_attained.
    + repeat split; try (intros; lia || discriminate || reflexivity).
      * apply longest_upper.
      * apply longest_attained.
  - intros TIME_ZONE kwargs.
    unfold TimeZoneField_init, validate_timezone_max_length.
    destruct (Z.ltb_spec MAX_TIMEZONE_LENGTH (longest ALL_TIMEZONE_CHOICES))
      as [Hlt | Hge]; cbn.
    + repeat split; try (intros; lia || discriminate || reflexivity).
      intros [cfg Hcfg]. discriminate.
    + repeat split; try (intros; lia || discriminate).
      intros _. eexists. reflexivity.
Qed.

(* ===================================================================== *)
(** ** More on get_db_prep_save and get_db_prep_lookup *)
(* ===================================================================== *)

Section storage_more.
Context `{Globals}.
Context {dbvalue : Type}.
Implicit Types (super_save super_lookup : option datetime -> result dbvalue).

(** A converted value is aware, so its reading with no tzinfo is another
    value. *)
Lemma converted_is_not_stripped (d a : datetime) :
  convert_to_default d = Ok a -> a <> {| wall := wall a; dt_tzinfo := None |}.
Proof.
  intros Ha Heq. apply convert_to_default_Ok in Ha.
  destruct (converted_aware d a Ha) as [t Ht].
  rewrite Heq in Ht. discriminate.
Qed.

(** X1.  Whatever the value and the connection, [get_db_prep_save] calls the
    probe at most once, the base class at most once and never before the
    probe; when the base class is reached the outcome of the call is the
    outcome of the base class on the value it was handed, and otherwise the
    call raises. *)
Theorem save_calls_collaborators_at_most_once super_save value connection :
  let r := get_db_prep_save super_save value connection in
  (exists v, trace r = [BaseSave v] /\ outcome r = super_save v)
  \/ (exists p v, trace r = [Probe p; BaseSave v] /\ outcome r = super_save v)
  \/ (exists p, trace r = [Probe p] /\ raises (outcome r))
  \/ (trace r = [] /\ raises (outcome r)).
Proof.
  cbn zeta. destruct value as [d |].
  - destruct (convert_to_default d) as [a | e] eqn:Ha.
    + rewrite (get_db_prep_save_datetime super_save d a connection Ha).
      destruct (probe_of connection) as [[f |] | e];
        [destruct (f (Some a)) as [u | []] | |]; cbn;
        eauto 8 using I.
    + rewrite (get_db_prep_save_unconverted super_save d e connection Ha).
      cbn. eauto 8 using I.
  - rewrite get_db_prep_save_None.
    destruct (probe_of connection) as [[f |] | e];
      [destruct (f None) as [u | []] | |]; cbn;
      eauto 8 using I.
Qed.

(** X2.  A datetime that lines 91-95 cannot convert ends the call with
    nothing handed on.  Otherwise the base class receives the reading of the
    converted value with no tzinfo exactly when the connection has a probe
    and the probe answers the converted value with [ValueError], and it
    receives the aware converted value exactly when there is no probe or the
    probe returns normally. *)
Theorem stripped_exactly_on_probe_ValueError super_save d connection :
  match convert_to_default d with
  | Raise e =>
      get_db_prep_save super_save (Some d) connection = Traced [] (Raise e)
  | Ok a =>
      converted d a
      /\ (In (BaseSave (Some {| wall := wall a; dt_tzinfo := None |}))
             (trace (get_db_prep_save super_save (Some d) connection))
          <-> exists f, probe_of connection = Ok (Some f)
                        /\ f (Some a) = Raise ValueError)
      /\ (In (BaseSave (Some a))
             (trace (get_db_prep_save super_save (Some d) connection))
          <-> probe_of connection = Ok None
              \/ exists f u, probe_of connection = Ok (Some f)
                             /\ f (Some a) = Ok u)
  end.
Proof.
  destruct (convert_to_default d) as [a | e] eqn:Ha;
    [| now apply get_db_prep_save_unconverted].
  split; [now apply convert_to_default_Ok |].
  pose proof (converted_is_not_stripped d a Ha) as Hne.
  rewrite (get_db_prep_save_datetime super_save d a connection Ha).
  destruct (probe_of connection) as [[f |] | e];
    [destruct (f (Some a)) as [u | e] eqn:Hf; [| destruct e] | |]; cbn;
    (split;
     (split;
      [ intros Hin; decompose [or] Hin; try discriminate; try contradiction;
        simplify_eq; eauto
      | intros Hex; decompose [or ex and] Hex; simplify_eq;
        try congruence; auto ])).
Qed.

(** X3.  A naive datetime that can be localized, saved through a connection
    whose probe refuses its localized form, reaches the base class exactly
    as it was given. *)
Theorem naive_value_stored_as_given super_save d i connection f :
  dt_tzinfo d = None ->
  tz_info_for_local default_tz (wall d) = Ok i ->
  probe_of connection = Ok (Some f) ->
  f (Some {| wall := wall d;
             dt_tzinfo := Some {| zone := tz_name default_tz;
                                  _utcoffset := ti_utcoffset i;
                                  _dst := ti_dst i;
                                  _tzname := ti_tzname i |} |})
    = Raise ValueError ->
  get_db_prep_save super_save (Some d) connection
  = Traced [Probe (Some {| wall := wall d;
                           dt_tzinfo := Some {| zone := tz_name default_tz;
                                                _utcoffset := ti_utcoffset i;
                                                _dst := ti_dst i;
                                                _tzname := ti_tzname i |} |});
            BaseSave (Some d)]
           (super_save (Some d)).
Proof.
  intros Hd Hi Hp Hf.
  assert (Ha : convert_to_default d =
               Ok {| wall := wall d;
                     dt_tzinfo := Some {| zone := tz_name default_tz;
                                          _utcoffset := ti_utcoffset i;
                                          _dst := ti_dst i;
                                          _tzname := ti_tzname i |} |}).
  { apply convert_to_default_Ok. left. split; [assumption |]. eauto. }
  rewrite (get_db_prep_save_datetime super_save d _ connection Ha).
  rewrite Hp, Hf. cbn.
  destruct d as [w t]. cbn in Hd. subst t. reflexivity.
Qed.

(** X4.  An exception of the probe other than [ValueError] is not handled:
    it is the outcome of the call and the base class is not reached. *)
Theorem probe_error_propagates super_save d a connection f e :
  convert_to_default d = Ok a ->
  probe_of connection = Ok (Some f) ->
  f (Some a) = Raise e ->
  e <> ValueError ->
  get_db_prep_save super_save (Some d) connection
  = Traced [Probe (Some a)] (Raise e).
Proof.
  intros Ha Hp Hf He.
  rewrite (get_db_prep_save_datetime super_save d a connection Ha).
  rewrite Hp, Hf. now destruct e.
Qed.

(** X5.  The condition of line 98 reads its attributes with [getattr] and no
    default, after lines 91-95 have run: once the value is past the
    conversion ([None] always is), a connection that lacks [ops], or whose
    [ops] lacks [value_to_db_datetime], makes the call raise
    [AttributeError] before anything is handed on, and a value that the
    conversion refuses fails with the error of the conversion; an attribute
    that is present but false only skips the probe, as a missing connection
    does. *)
Theorem connection_attributes super_save value :
  let prepared :=
    match value with
    | None => Ok None
    | Some d => Some <$> convert_to_default d
    end in
  let failure :=
    match prepared with
    | Ok _ => Raise AttributeError
    | Raise e => Raise e
    end in
  get_db_prep_save super_save value (Some {| ops := NoAttr |})
  = Traced [] failure
  /\ get_db_prep_save super_save value
       (Some {| ops := Attr {| value_to_db_datetime := NoAttr |} |})
     = Traced [] failure
  /\ get_db_prep_save super_save value (Some {| ops := FalsyAttr |})
     = get_db_prep_save super_save value None
  /\ get_db_prep_save super_save value
       (Some {| ops := Attr {| value_to_db_datetime := FalsyAttr |} |})
     = get_db_prep_save super_save value None.
Proof.
  cbn zeta. destruct value as [d |].
  - destruct (convert_to_default d) as [a | e] eqn:Ha.
    + rewrite !(get_db_prep_save_datetime super_save d a _ Ha).
      repeat split; reflexivity.
    + rewrite !(get_db_prep_save_unconverted super_save d e _ Ha).
      repeat split; reflexivity.
  - rewrite !get_db_prep_save_None. repeat split; reflexivity.
Qed.

(** X6.  For a datetime that the conversion accepts, [get_db_prep_lookup]
    hands the base class the aware value converted to the default zone, the
    same that [get_db_prep_save] computes, and never consults the
    connection: on a connection whose probe refuses aware values, the value
    saved is the naive reading of the converted value while the value used
    in a lookup keeps its tzinfo. *)
Theorem lookup_keeps_tzinfo_where_save_strips
    super_save super_lookup d a connection f :
  convert_to_default d = Ok a ->
  probe_of connection = Ok (Some f) ->
  (forall v, is_aware v = true -> f (Some v) = Raise ValueError) ->
  converted d a
  /\ is_aware a = true
  /\ is_naive {| wall := wall a; dt_tzinfo := None |} = true
  /\ get_db_prep_lookup super_lookup (Some d)
     = Traced [BaseLookup (Some a)] (super_lookup (Some a))
  /\ get_db_prep_save super_save (Some d) connection
     = Traced [Probe (Some a);
               BaseSave (Some {| wall := wall a; dt_tzinfo := None |})]
              (super_save (Some {| wall := wall a; dt_tzinfo := None |})).
Proof.
  intros Ha Hp Hf.
  pose proof (proj1 (convert_to_default_Ok d a) Ha) as Hc.
  destruct (converted_instant d a Hc) as [_ Haw].
  split; [assumption |]. split; [assumption |]. split; [reflexivity |]. split.
  - rewrite get_db_prep_lookup_datetime. now rewrite Ha.
  - rewrite (get_db_prep_save_datetime super_save d a connection Ha).
    now rewrite Hp, (Hf a Haw).
Qed.

(** X7.  For an aware datetime that the conversion of lines 91-95 accepts,
    the conversion is idempotent: the converted value converts to itself,
    so saving or looking up a value that was already prepared hands on that
    very value. *)
Theorem convert_to_default_idempotent_on_aware super_save super_lookup d a :
  is_aware d = true ->
  convert_to_default d = Ok a ->
  convert_to_default a = Ok a
  /\ get_db_prep_save super_save (Some a) None
     = Traced [BaseSave (Some a)] (super_save (Some a))
  /\ get_db_prep_lookup super_lookup (Some a)
     = Traced [BaseLookup (Some a)] (super_lookup (Some a)).
Proof.
  intros Haw Ha.
  pose proof (convert_to_default_again d a Haw Ha) as Hca.
  split; [exact Hca | split].
  - now rewrite (get_db_prep_save_datetime super_save a a None Hca).
  - rewrite get_db_prep_lookup_datetime. now rewrite Hca.
Qed.

End storage_more.

Lemma naive_value_stored_as_given_witness :
  let d := {| wall := reading 2021 3 15 10 0 0; dt_tzinfo := None |} in
  let a := {| wall := reading 2021 3 15 10 0 0;
              dt_tzinfo := Some {| zone := "UTC"; _utcoffset := 0;
                                   _dst := 0; _tzname := "UTC" |} |} in
  @get_db_prep_save Example.globals_utc _ Example.store (Some d)
    (Some Example.mysql)
  = Traced [Probe (Some a); BaseSave (Some d)] (Example.store (Some d)).
Proof.
  intros d a.
  apply (@naive_value_stored_as_given Example.globals_utc _ Example.store d
           Pytz.utc_info (Some Example.mysql)
           Example.mysql_value_to_db_datetime);
    reflexivity.
Defined.

Lemma probe_error_propagates_witness :
  let d := {| wall := reading 2021 3 15 10 0 0; dt_tzinfo := None |} in
  let a := {| wall := reading 2021 3 15 10 0 0;
              dt_tzinfo := Some (tz_self Pytz.UTC) |} in
  let broken : Connection :=
    {| ops := Attr {| value_to_db_datetime :=
                        Attr (fun _ => Raise TypeError) |} |} in
  @get_db_prep_save Example.globals_utc _ Example.store (Some d) (Some broken)
  = Traced [Probe (Some a)] (Raise TypeError).
Proof.
  intros d a broken.
  apply (@probe_error_propagates Example.globals_utc _ Example.store d a
           (Some broken) (fun _ => Raise TypeError) TypeError);
    [reflexivity | reflexivity | reflexivity | discriminate].
Defined.

Lemma lookup_keeps_tzinfo_where_save_strips_witness :
  let edt := {| zone := "America/New_York"; _utcoffset := hours (-4);
                _dst := hours 1; _tzname := "EDT" |} in
  let d := {| wall := reading 2021 3 15 6 0 0; dt_tzinfo := Some edt |} in
  let a := {| wall := reading 2021 3 15 10 0 0;
              dt_tzinfo := Some {| zone := "UTC"; _utcoffset := 0;
                                   _dst := 0; _tzname := "UTC" |} |} in
  let naive := {| wall := reading 2021 3 15 10 0 0; dt_tzinfo := None |} in
  @converted Example.globals_utc d a
  /\ is_aware a = true
  /\ is_naive naive = true
  /\ @get_db_prep_lookup Example.globals_utc _ Example.store (Some d)
     = Traced [BaseLookup (Some a)] (Example.store (Some a))
  /\ @get_db_prep_save Example.globals_utc _ Example.store (Some d)
       (Some Example.mysql)
     = Traced [Probe (Some a); BaseSave (Some naive)]
              (Example.store (Some naive)).
Proof.
  intros edt d a naive.
  apply (@lookup_keeps_tzinfo_where_save_strips Example.globals_utc _
           Example.store Example.store d a (Some Example.mysql)
           Example.mysql_value_to_db_datetime).
  - reflexivity.
  - reflexivity.
  - intros v Hv. unfold Example.mysql_value_to_db_datetime. now rewrite Hv.
Defined.

Lemma convert_to_default_idempotent_on_aware_witness :
  let edt := {| zone := "America/New_York"; _utcoffset := hours (-4);
                _dst := hours 1; _tzname := "EDT" |} in
  let d := {| wall := reading 2021 3 15 6 0 0; dt_tzinfo := Some edt |} in
  let a := {| wall := reading 2021 3 15 10 0 0;
              dt_tzinfo := Some {| zone := "UTC"; _utcoffset := 0;
                                   _dst := 0; _tzname := "UTC" |} |} in
  @convert_to_default Example.globals_utc a = Ok a
  /\ @get_db_prep_save Example.globals_utc _ Example.store (Some a) None
     = Traced [BaseSave (Some a)] (Example.store (Some a))
  /\ @get_db_prep_lookup Example.globals_utc _ Example.store (Some a)
     = Traced [BaseLookup (Some a)] (Example.store (Some a)).
Proof.
  intros edt d a.
  apply (@convert_to_default_idempotent_on_aware Example.globals_utc _
           Example.store Example.store d a); reflexivity.
Defined.

(** For a naive datetime the conversion need not be idempotent: in
    America/New_York the reading 2021-03-14 02:30, which the clock skipped,
    is localized as 02:30 standard time and converts on to 03:30 daylight
    time. *)
Lemma convert_skipped_reading_moves :
  let d := {| wall := reading 2021 3 14 2 30 0; dt_tzinfo := None |} in
  exists a b,
    @convert_to_default Example.globals_new_york d = Ok a
    /\ @convert_to_default Example.globals_new_york a = Ok b
    /\ wall a = reading 2021 3 14 2 30 0
    /\ wall b = reading 2021 3 14 3 30 0.
Proof.
  intros d. eexists _, _. split; [vm_compute; reflexivity |].
  split; [vm_compute; reflexivity |]. split; reflexivity.
Qed.

(** A lookup on [datetime.min] with America/New_York as the default zone
    fails in the conversion. *)
Lemma lookup_at_datetime_min_overflows :
  @get_db_prep_lookup Example.globals_new_york _ Example.store
    (Some {| wall := datetime_min; dt_tzinfo := None |})
  = Traced [] (Raise OverflowError).
Proof. vm_compute. reflexivity. Qed.

(* ===================================================================== *)
(** ** More on the accessors of prep_localized_datetime *)
(* ===================================================================== *)

Lemma dt_field_name_inj (f g : LocalizedDateTimeField) :
  dt_field_name f = dt_field_name g -> attname f = attname g.
Proof.
  unfold dt_field_name. intros Heq.
  exact (inj (String.append "_datetimezone_") _ _ Heq).
Qed.

Section setter_more.
Context `{PytzLib} `{Globals}.

(** X8.  Assigning [None] completes under every policy and leaves [None] in
    the attribute: the policy is not consulted, so neither a callable that
    raises nor the lookup of a Relational policy is reached.  Under a
    Relational policy [None] is the only value the setter accepts. *)
Theorem setter_accepts_None field instance :
  on_read field instance None = Ok None
  /\ (forall relation dt,
        timezone field = PyStr relation ->
        (exists instance', set_dtz_field field instance dt = Ok instance')
        <-> dt = None).
Proof.
  split.
  - unfold on_read, set_dtz_field. cbn. apply get_after_set.
  - intros relation dt Htz. split.
    + intros [instance' Hset]. destruct dt as [d |]; [| reflexivity].
      pose proof (resolve_relational field instance relation Htz) as Hres.
      rewrite (set_dtz_field_unresolved field instance d NameError Hres) in Hset.
      destruct (if is_naive d then localize default_tz d else Ok d);
        discriminate.
    + intros ->. eexists. reflexivity.
Qed.

(** X9.  A setter that completes changes one attribute of the record, the
    one named after its field: the primary key and the table behind the
    manager are kept, the attribute can be read afterwards, and the
    attribute of any other localized field reads as before. *)
Theorem setter_changes_one_attribute field instance dt instance' :
  set_dtz_field field instance dt = Ok instance' ->
  pk instance' = pk instance
  /\ _default_manager instance' = _default_manager instance
  /\ (exists v, attrs instance' = <[dt_field_name field := v]> (attrs instance)
                /\ get_dtz_field field instance' = Ok v)
  /\ (forall other,
        attname other <> attname field ->
        get_dtz_field other instance' = get_dtz_field other instance).
Proof.
  intros Hset.
  destruct (set_dtz_field_Ok_inv field instance dt instance' Hset) as [v ->].
  split; [reflexivity |]. split; [reflexivity |]. split.
  - exists v. split; [reflexivity | apply get_after_set].
  - intros other Hne. unfold get_dtz_field, getattr, setattr. cbn.
    rewrite lookup_insert_ne; [reflexivity |].
    intros Heq. apply Hne. symmetry. now apply dt_field_name_inj.
Qed.

(** X10.  Under a Static policy the attribute reads, after a datetime was
    assigned, as that datetime made aware (a naive one localized in the
    default zone) and moved to the policy's zone: the value itself when its
    tzinfo is the zone object, otherwise its UTC reading plus the zone's
    offset in force then, with the instance for that offset.  The read
    completes exactly when that value exists, which it does whenever the
    UTC reading and the zone's reading lie within the range of datetime;
    the record plays no part; the value read denotes the point in time of
    the value assigned, so two Static policies show the same point in
    time. *)
Theorem static_policy_shows_the_same_instant name tz instance d :
  (forall r,
     on_read (static_field name tz) instance (Some d) = Ok (Some r)
     <-> exists dt, made_aware d dt /\ moved_to tz dt r)
  /\ (forall r instance2,
        on_read (static_field name tz) instance (Some d) = Ok (Some r) ->
        on_read (static_field name tz) instance2 (Some d) = Ok (Some r))
  /\ (forall r,
        on_read (static_field name tz) instance (Some d) = Ok (Some r) ->
        is_aware r = true /\ instant r = point_in_time d)
  /\ (forall name2 tz2 instance2 r r2,
        on_read (static_field name tz) instance (Some d) = Ok (Some r) ->
        on_read (static_field name2 tz2) instance2 (Some d) = Ok (Some r2) ->
        instant r2 = instant r)
  /\ (forall p,
        point_in_time d = Some p ->
        is_aware d = true
        \/ (exists i, tz_info_for_local default_tz (wall d) = Ok i) ->
        datetime_min <= p <= datetime_max ->
        datetime_min <= p + ti_utcoffset (tz_info_at_utc tz p)
          <= datetime_max ->
        exists r,
          on_read (static_field name tz) instance (Some d) = Ok (Some r)
          /\ instant r = Some p).
Proof.
  assert (Hread : forall name tz instance r,
            on_read (static_field name tz) instance (Some d) = Ok (Some r)
            <-> exists dt, made_aware d dt /\ moved_to tz dt r).
  { intros n z i r. apply on_read_resolved. apply resolve_static. }
  assert (Hinst : forall name tz instance r,
            on_read (static_field name tz) instance (Some d) = Ok (Some r) ->
            is_aware r = true /\ instant r = point_in_time d).
  { intros n z i r Hr. apply Hread in Hr. destruct Hr as (dt & Hdt & Hm).
    destruct (made_aware_instant d dt Hdt) as [_ Hi].
    destruct (moved_to_instant z dt r Hm) as [Hir Haw].
    split; [assumption | congruence]. }
  split; [apply Hread |]. split; [| split; [apply Hinst | split]].
  - intros r instance2 Hr. apply Hread. now apply Hread in Hr.
  - intros name2 tz2 instance2 r r2 Hr Hr2.
    apply Hinst in Hr, Hr2. destruct Hr as [_ ->], Hr2 as [_ ->]. reflexivity.
  - intros p Hp Hloc Hu Hw.
    assert (Hdt : exists dt, made_aware d dt).
    { destruct Hloc as [Haw | [i Hi]].
      - exists d. right. auto.
      - destruct (dt_tzinfo d) as [t |] eqn:Hd.
        + exists d. right. split; [| reflexivity].
          unfold is_aware, is_naive. now rewrite Hd.
        + eexists. left. split; [assumption |]. eauto. }
    destruct Hdt as [dt Hdt].
    destruct (made_aware_instant d dt Hdt) as [_ Hi]. rewrite Hp in Hi.
    destruct (moved_to_exists tz dt p Hi Hu Hw) as (r & Hr & Hir).
    exists r. split; [| assumption]. apply Hread. eauto.
Qed.

(** X11.  Under a Static policy, assigning the value that was read back
    leaves the same value in the attribute. *)
Theorem static_policy_reassign_same name tz instance v r :
  on_read (static_field name tz) instance (Some v) = Ok (Some r) ->
  forall instance2,
    on_read (static_field name tz) instance2 (Some r) = Ok (Some r).
Proof.
  intros Hr instance2.
  apply (on_read_resolved _ _ _ tz _ (resolve_static name tz instance)) in Hr.
  destruct Hr as (dt & _ & Hm).
  apply (on_read_resolved _ _ _ tz _ (resolve_static name tz instance2)).
  exists r. split.
  - right. split; [| reflexivity]. now destruct (moved_to_instant tz dt r Hm).
  - exact (moved_to_again tz dt r Hm).
Qed.

End setter_more.

Lemma setter_changes_one_attribute_witness :
  let d := {| wall := reading 2021 3 15 10 0 0; dt_tzinfo := None |} in
  let shown :=
    {| wall := reading 2021 3 15 6 0 0;
       dt_tzinfo := Some (instance_of Pytz.New_York Pytz.EDT) |} in
  let field := static_field "when" Pytz.New_York in
  let instance' := setattr Example.empty_record "_datetimezone_when" (Some shown) in
  pk instance' = pk Example.empty_record
  /\ _default_manager instance' = _default_manager Example.empty_record
  /\ (exists v, attrs instance' =
                  <[@dt_field_name field := v]> (attrs Example.empty_record)
                /\ @get_dtz_field field instance' = Ok v)
  /\ (forall other,
        attname other <> attname field ->
        @get_dtz_field other instance' = @get_dtz_field other Example.empty_record).
Proof.
  intros d shown field instance'.
  apply (@setter_changes_one_attribute Example.lib Example.globals_utc
           field Example.empty_record (Some d) instance').
  vm_compute. reflexivity.
Defined.

Lemma static_policy_reassign_same_witness :
  let d := {| wall := reading 2021 3 15 10 0 0; dt_tzinfo := None |} in
  let shown :=
    {| wall := reading 2021 3 15 6 0 0;
       dt_tzinfo := Some (instance_of Pytz.New_York Pytz.EDT) |} in
  @on_read Example.lib Example.globals_utc
    (static_field "when" Pytz.New_York)
    (setattr Example.empty_record "_datetimezone_when" (Some shown))
    (Some shown)
  = Ok (Some shown).
Proof.
  intros d shown.
  apply (@static_policy_reassign_same Example.lib Example.globals_utc
           "when" Pytz.New_York Example.empty_record d shown).
  vm_compute. reflexivity.
Defined.

(* ===================================================================== *)
(** ** Which attributes receive the property *)
(* ===================================================================== *)

Lemma is_None_false (o : pyobj) : is_None o = false <-> o <> PyNone.
Proof. destruct o; cbn; split; congruence. Qed.

(** X12.  [prep_localized_datetime] gives the property to exactly the
    attributes of the [LocalizedDateTimeField]s whose [timezone] is not
    [None], each with accessors that close over its own field; other fields
    and fields without a time zone get none. *)
Theorem prep_localized_datetime_spec (fields : list ModelField)
    (a : string) (f : LocalizedDateTimeField) :
  In (a, f) (prep_localized_datetime fields)
  <-> In (Localized f) fields /\ timezone f <> PyNone /\ a = attname f.
Proof.
  induction fields as [| [other | g] fields IH]; cbn.
  - tauto.
  - rewrite IH. split.
    + intros (Hin & Hnn & Ha). auto.
    + intros ([Heq | Hin] & Hnn & Ha); [discriminate | auto].
  - destruct (is_None (timezone g)) eqn:Hg.
    + rewrite IH. split.
      * intros (Hin & Hnn & Ha). auto.
      * intros ([Heq | Hin] & Hnn & Ha); [| auto].
        injection Heq as ->. destruct (timezone f); cbn in Hg; congruence.
    + apply is_None_false in Hg. cbn. rewrite IH. split.
      * intros [Heq | (Hin & Hnn & Ha)]; [| auto].
        injection Heq as <- <-. auto.
      * intros ([[= ->] | Hin] & Hnn & Ha); [left; congruence | right; auto].
Qed.

(** The properties come in the order of the fields. *)
Lemma prep_localized_datetime_app (xs ys : list ModelField) :
  prep_localized_datetime (xs ++ ys)
  = prep_localized_datetime xs ++ prep_localized_datetime ys.
Proof.
  induction xs as [| [other | g] xs IH]; cbn; [reflexivity | assumption |].
  destruct (is_None (timezone g)); cbn; now rewrite IH.
Qed.

(* ===================================================================== *)
(** ** The constructor of LocalizedDateTimeField and formfield *)
(* ===================================================================== *)

Section constructor.
Context `{PytzLib} `{Globals}.
Context (str_of_callable : (unit -> result pyobj) -> string).

(** X13.  In a field the constructor has built, [timezone] is a string
    only if the argument was that string and pytz does not know it, and it is
    a zone object only if the argument was that object or a known name that
    resolves to it; an argument that is no string is kept as it is. *)
Theorem constructor_keeps_only_unknown_strings name o field :
  LocalizedDateTimeField_init name o = Ok field ->
  attname field = name
  /\ (forall s, timezone field = PyStr s ->
                o = PyStr s /\ s ∉ all_timezones_set)
  /\ (forall tz, timezone field = PyTz tz ->
                 o = PyTz tz
                 \/ exists s, o = PyStr s /\ s ∈ all_timezones_set
                              /\ tz_lookup s = Some tz)
  /\ (isinstance_basestring o = false -> timezone field = o).
Proof.
  unfold LocalizedDateTimeField_init.
  destruct o as [| s | n | tz | f]; try (intros [= <-]; cbn;
    repeat split; try discriminate; try (intros ? [= ->]; auto)).
  destruct (decide (s ∈ all_timezones_set)) as [Hin | Hout].
  - cbn. destruct (tz_lookup s) as [tz |] eqn:Hs; cbn; [| discriminate].
    intros [= <-]. cbn. repeat split; try discriminate.
    intros tz' [= <-]. right. eauto.
  - intros [= <-]. cbn. repeat split; try discriminate.
    all: match goal with
         | Heq : PyStr _ = PyStr _ |- _ => injection Heq as <-
         end; reflexivity || assumption.
Qed.

(** X14.  A field declared with a known name that pytz resolves follows the
    Static policy of that zone: the constructor completes with the zone
    object in [timezone], and an assignment of a datetime completes, for
    every record, exactly when the datetime can be made aware and moved to
    that zone within the range of datetime; the attribute then holds the
    moved value. *)
Theorem known_name_gives_static_policy name z tz :
  z ∈ all_timezones_set ->
  tz_lookup z = Some tz ->
  exists field,
    LocalizedDateTimeField_init name (PyStr z) = Ok field
    /\ timezone field = PyTz tz
    /\ (forall instance d instance',
          set_dtz_field field instance (Some d) = Ok instance'
          <-> assigned field instance d tz instance')
    /\ (forall instance d r,
          on_read field instance (Some d) = Ok (Some r)
          <-> exists dt, made_aware d dt /\ moved_to tz dt r).
Proof.
  intros Hin Hz. exists (static_field name tz).
  split; [| split; [reflexivity | split]].
  - unfold LocalizedDateTimeField_init. rewrite decide_True by assumption.
    cbn. now rewrite Hz.
  - intros instance d instance'. apply set_dtz_field_resolved. reflexivity.
  - intros instance d r. apply on_read_resolved. reflexivity.
Qed.

(** X15.  A string that pytz does not know is accepted by the constructor
    and kept as the name of a relation; from then on no assignment of a
    datetime to the attribute completes, for any record: once lines 137-138
    are passed (an aware value passes them as it is) the setter raises
    [NameError], and a naive value that cannot be localized fails with the
    error of line 138 before that; the form field is given no time zone. *)
Theorem unknown_name_accepted_then_NameError name s :
  s ∉ all_timezones_set ->
  exists field,
    LocalizedDateTimeField_init name (PyStr s) = Ok field
    /\ timezone field = PyStr s
    /\ (forall instance d,
          set_dtz_field field instance (Some d) =
            match (if is_naive d then localize default_tz d else Ok d) with
            | Ok _ => Raise NameError
            | Raise e => Raise e
            end)
    /\ (forall instance d,
          is_aware d = true ->
          set_dtz_field field instance (Some d) = Raise NameError)
    /\ (forall instance d instance',
          set_dtz_field field instance (Some d) <> Ok instance')
    /\ formfield str_of_callable field ∅ !! "timezone"%string = None.
Proof.
  intros Hout. exists (relational_field name s).
  assert (Hset : forall instance d,
            set_dtz_field (relational_field name s) instance (Some d) =
              match (if is_naive d then localize default_tz d else Ok d) with
              | Ok _ => Raise NameError
              | Raise e => Raise e
              end).
  { intros instance d. apply set_dtz_field_unresolved.
    now apply (resolve_relational _ _ s). }
  split; [| split; [reflexivity | split; [exact Hset | split; [| split]]]].
  - unfold LocalizedDateTimeField_init. now rewrite decide_False by assumption.
  - intros instance d Haw. rewrite Hset. unfold is_aware in Haw.
    destruct (is_naive d); [discriminate | reflexivity].
  - intros instance d instance'. rewrite Hset.
    now destruct (if is_naive d then localize default_tz d else Ok d).
  - unfold formfield. cbn. rewrite lookup_union_r by apply lookup_empty.
    apply lookup_singleton_ne. discriminate.
Qed.

(** X16.  [formfield] lets the caller's keyword arguments win over its own;
    it adds [form_class]; it touches no key but [form_class] and
    [timezone]; and, unless the caller gave one, it adds [timezone] exactly
    when the field's [timezone] is no string and its text is a known name,
    the value being that text: the name of a zone object, "None" for
    [None], the digits of a number, the text of a callable; for a string
    (a Relational policy) nothing is added. *)
Theorem formfield_keyword_arguments field kwargs :
  let out := formfield str_of_callable field kwargs in
  let known (text : string) : option formarg :=
    if decide (text ∈ all_timezones_set) then Some (FormText text) else None in
  (forall k v, kwargs !! k = Some v -> out !! k = Some v)
  /\ (kwargs !! "form_class"%string = None ->
      out !! "form_class"%string = Some (FormClass "forms.LocalizedDateTimeField"))
  /\ (forall k, k <> "form_class"%string -> k <> "timezone"%string ->
                out !! k = kwargs !! k)
  /\ (kwargs !! "timezone"%string = None ->
      out !! "timezone"%string =
        match timezone field with
        | PyStr _ => None
        | PyNone => known "None"%string
        | PyInt n => known (pretty n)
        | PyTz tz => known (tz_name tz)
        | PyCallable f => known (str_of_callable f)
        end).
Proof.
  cbn zeta. unfold formfield.
  split; [| split; [| split]].
  - intros k v Hk. now apply lookup_union_Some_l.
  - intros Hk. rewrite lookup_union_r by assumption.
    destruct (_ && _); [rewrite lookup_insert_ne by discriminate |];
      apply lookup_singleton_eq.
  - intros k Hfc Htz. destruct (kwargs !! k) as [v |] eqn:Hk.
    + now apply lookup_union_Some_l.
    + rewrite lookup_union_r by assumption.
      destruct (_ && _);
        [rewrite lookup_insert_ne by congruence |];
        now apply lookup_singleton_ne.
  - intros Hk. rewrite lookup_union_r by assumption.
    destruct (timezone field) as [| s | n | tz | f]; cbn;
      try (apply lookup_singleton_ne; discriminate);
      (destruct (decide _) as [Hin | Hout];
       [ rewrite bool_decide_eq_true_2 by assumption; apply lookup_insert_eq
       | rewrite bool_decide_eq_false_2 by assumption;
         apply lookup_singleton_ne; discriminate ]).
Qed.

End constructor.

Lemma Example_New_York_known :
  ("America/New_York" : string) ∈ @all_timezones_set Example.lib.
Proof. cbn. set_solver. Qed.

Lemma Example_misspelt_unknown :
  ("America/New_Yrok" : string) ∉ @all_timezones_set Example.lib.
Proof.
  cbn. rewrite elem_of_union, !elem_of_singleton.
  intros [Heq | Heq]; discriminate.
Qed.

Lemma constructor_keeps_only_unknown_strings_witness :
  let field := relational_field "when" "America/New_Yrok" in
  attname field = "when"%string
  /\ (forall s, timezone field = PyStr s ->
                PyStr "America/New_Yrok" = PyStr s
                /\ s ∉ @all_timezones_set Example.lib)
  /\ (forall tz, timezone field = PyTz tz ->
                 PyStr "America/New_Yrok" = PyTz tz
                 \/ exists s, PyStr "America/New_Yrok" = PyStr s
                              /\ s ∈ @all_timezones_set Example.lib
                              /\ @tz_lookup Example.lib s = Some tz)
  /\ (isinstance_basestring (PyStr "America/New_Yrok") = false ->
      timezone field = PyStr "America/New_Yrok").
Proof.
  intros field.
  apply (@constructor_keeps_only_unknown_strings Example.lib "when"
           (PyStr "America/New_Yrok") field).
  unfold LocalizedDateTimeField_init.
  rewrite decide_False by exact Example_misspelt_unknown. reflexivity.
Defined.

Lemma known_name_gives_static_policy_witness :
  exists field,
    @LocalizedDateTimeField_init Example.lib "when" (PyStr "America/New_York")
    = Ok field
    /\ timezone field = PyTz Pytz.New_York
    /\ (forall instance d instance',
          @set_dtz_field Example.lib Example.globals_utc field instance (Some d)
          = Ok instance'
          <-> @assigned Example.globals_utc field instance d Pytz.New_York
                instance')
    /\ (forall instance d r,
          @on_read Example.lib Example.globals_utc field instance (Some d)
          = Ok (Some r)
          <-> exists dt, @made_aware Example.globals_utc d dt
                         /\ moved_to Pytz.New_York dt r).
Proof.
  apply (@known_name_gives_static_policy Example.lib Example.globals_utc
           "when" "America/New_York" Pytz.New_York).
  - exact Example_New_York_known.
  - reflexivity.
Defined.

(** The field of that declaration at work. *)
Lemma known_name_example :
  let d := {| wall := reading 2021 3 15 10 0 0; dt_tzinfo := None |} in
  @on_read Example.lib Example.globals_utc
    (static_field "when" Pytz.New_York) Example.empty_record (Some d)
  = Ok (Some {| wall := reading 2021 3 15 6 0 0;
                dt_tzinfo := Some {| zone := "America/New_York";
                                     _utcoffset := hours (-4);
                                     _dst := hours 1; _tzname := "EDT" |} |}).
Proof. vm_compute. reflexivity. Qed.

Lemma unknown_name_accepted_then_NameError_witness :
  exists field,
    @LocalizedDateTimeField_init Example.lib "when" (PyStr "America/New_Yrok")
    = Ok field
    /\ timezone field = PyStr "America/New_Yrok"
    /\ (forall instance d,
          @set_dtz_field Example.lib Example.globals_utc field instance (Some d)
          = match (if is_naive d
                   then localize (@default_tz Example.globals_utc) d
                   else Ok d) with
            | Ok _ => Raise NameError
            | Raise e => Raise e
            end)
    /\ (forall instance d,
          is_aware d = true ->
          @set_dtz_field Example.lib Example.globals_utc field instance (Some d)
          = Raise NameError)
    /\ (forall instance d instance',
          @set_dtz_field Example.lib Example.globals_utc field instance (Some d)
          <> Ok instance')
    /\ @formfield Example.lib (fun _ => "<function>"%string) field ∅
         !! "timezone"%string = None.
Proof.
  apply (@unknown_name_accepted_then_NameError Example.lib Example.globals_utc
           (fun _ => "<function>"%string) "when" "America/New_Yrok").
  exact Example_misspelt_unknown.
Defined.

(* ===================================================================== *)
(** ** The constructor of TimeZoneField *)
(* ===================================================================== *)

(** X17.  The check of line 22 is made with the module's
    [MAX_TIMEZONE_LENGTH], never with the [max_length] of the call: whether
    the constructor fails does not depend on the keyword arguments, and when
    it completes each keyword argument given by the caller replaces the
    default, so a [max_length] of the caller is used as it is. *)
Theorem TimeZoneField_init_keyword_arguments `{Globals} `{Zones}
    (TIME_ZONE : string) (kwargs : field_kwargs) :
  (forall kwargs',
     raises (TimeZoneField_init TIME_ZONE kwargs)
     <-> raises (TimeZoneField_init TIME_ZONE kwargs'))
  /\ (forall cfg,
        TimeZoneField_init TIME_ZONE kwargs = Ok cfg ->
        kw_max_length cfg
        = Some (default MAX_TIMEZONE_LENGTH (kw_max_length kwargs))
        /\ kw_default cfg = Some (default TIME_ZONE (kw_default kwargs))
        /\ kw_choices cfg
           = Some (default PRETTY_TIMEZONE_CHOICES (kw_choices kwargs)))
  /\ (forall n cfg,
        kw_max_length kwargs = Some n ->
        TimeZoneField_init TIME_ZONE kwargs = Ok cfg ->
        kw_max_length cfg = Some n).
Proof.
  unfold TimeZoneField_init.
  destruct (validate_timezone_max_length MAX_TIMEZONE_LENGTH
              ALL_TIMEZONE_CHOICES) as [[] | e]; cbn.
  - split; [tauto |]. split.
    + intros cfg [= <-]. repeat split.
    + intros n cfg Hn [= <-]. cbn. now rewrite Hn.
  - split; [tauto |]. split; intros; discriminate.
Qed.
